(** * forex-backend: the fetch / normalise / cache pipeline

    A shallow embedding of [src/server-twelvedata.js], which holds the two
    provider variants of the server (Twelve Data and AlphaVantage), and the
    properties of its cache, upstream client, demo generator and request
    handlers.

    Conventions of the embedding.
    - A JS [Map] keyed by strings is a [gmap string _]; only lookups,
      insertion, deletion and the size are used, so insertion order is not
      modelled.
    - [Date.now()] is an integer number of milliseconds, a [Z]; every read of
      the clock is an explicit argument.
    - JS numbers are modelled as exact rationals ([Q]) plus [NaN]: binary64
      rounding, infinities and the sign of zero are outside the model.
    - A thrown [Error] is its [message]; [try]/[catch] is a match on [Exn].
    - The two variants have the same [Cache] class, the same
      [generateDemoCandles] and the same cache-clearing route, character for
      character; these are modelled once.
    - The built-ins [parseFloat] and the conversion to string of a template
      literal are arguments: functions of the value they are given that
      return or throw, as the built-ins do on an object without a callable
      [toString].
    - The answer of the upstream provider and the values of [Math.random()]
      are arguments. Each function returns, next to its result, the new cache
      and the list of effects it performed (cache reads and writes, network
      calls, demo generation). [console.log] output is not modelled. *)

From Stdlib Require Import ZArith QArith Qround Lqa String Ascii List Lia.
From stdpp Require Import gmap strings list fin_maps pretty.

Local Open Scope string_scope.

(** ** JSON values as [res.json()] yields them *)

#[local] Set Warnings "-register-all".
Inductive json : Type :=
| JNull
| JBool (b : bool)
| JNum (q : Q)
| JStr (s : string)
| JArr (items : list json)
| JObj (fields : list (string * json)).

(** A JS value read out of a JSON document; [None] is [undefined]. *)
Definition jsval : Type := option json.

(** [if (v)] and [!v]. *)
Definition truthy (v : jsval) : bool :=
  match v with
  | None => false
  | Some JNull => false
  | Some (JBool b) => b
  | Some (JNum q) => negb (Qeq_bool q 0)
  | Some (JStr s) => negb (String.eqb s "")
  | Some (JArr _) => true
  | Some (JObj _) => true
  end.

(** [v === 'lit'] *)
Definition strict_eq_str (v : jsval) (lit : string) : bool :=
  match v with
  | Some (JStr s) => String.eqb s lit
  | _ => false
  end.

(** [v === n] for an integer literal [n] *)
Definition strict_eq_num (v : jsval) (n : Z) : bool :=
  match v with
  | Some (JNum q) => Qeq_bool q (inject_Z n)
  | _ => false
  end.

(** [Array.isArray(v)] *)
Definition isArray (v : jsval) : bool :=
  match v with
  | Some (JArr _) => true
  | _ => false
  end.

(** ** Exceptions *)

Inductive Exn (A : Type) : Type :=
| Throw (message : string)
| Ret (a : A).
Arguments Throw {A} message.
Arguments Ret {A} a.

#[global] Instance Exn_ret : MRet Exn := fun A a => Ret a.

#[global] Instance Exn_bind : MBind Exn := fun A B k m =>
  match m with
  | Throw e => Throw e
  | Ret a => k a
  end.

(** ** Property access *)

Fixpoint assoc (name : string) (fields : list (string * json)) : jsval :=
  match fields with
  | [] => None
  | (k, v) :: rest => if String.eqb k name then Some v else assoc name rest
  end.

(** The message of the [TypeError] thrown when the property [name] of [null]
    is read. *)
Definition TypeError_null (name : string) : string :=
  "Cannot read properties of null (reading '" ++ name ++ "')".

(** [o.name] and [o["name"]], for the property names this program reads
    ([status], [code], [message], [values], [Note], [Error Message],
    [datetime], [open], ..., [1. open], ...): none of them is inherited by a
    number, a boolean, a string or an array, except [values] on an array,
    which is a function there, neither falsy nor an array, and so is
    rejected by the same test as [undefined]. Reading a property of [null]
    throws. *)
Definition get_field (o : json) (name : string) : Exn jsval :=
  match o with
  | JNull => Throw (TypeError_null name)
  | JObj fields => Ret (assoc name fields)
  | _ => Ret None
  end.

Fixpoint enumerate {A : Type} (i : nat) (l : list A) : list (string * A) :=
  match l with
  | [] => []
  | x :: rest => (pretty i, x) :: enumerate (S i) rest
  end.

Fixpoint chars (s : string) : list json :=
  match s with
  | EmptyString => []
  | String a rest => JStr (String a EmptyString) :: chars rest
  end.

(** [Object.entries(o)]: the own enumerable properties, in the order JS
    enumerates them; for a [JObj] that is the order of its list. *)
Definition entries (o : json) : Exn (list (string * json)) :=
  match o with
  | JNull => Throw "Cannot convert undefined or null to object"
  | JObj fields => Ret fields
  | JArr items => Ret (enumerate 0 items)
  | JStr s => Ret (enumerate 0 (chars s))
  | _ => Ret []
  end.

(** [Object.keys(o)] *)
Definition keys (o : json) : Exn (list string) :=
  es ← entries o; Ret (map fst es).

(** ** Strings *)

(** [s.slice(a, b)] for literal bounds [0 <= a <= b]. *)
Definition slice (a b : nat) (s : string) : string :=
  String.substring a (b - a) s.

Fixpoint prefixb (p s : string) : bool :=
  match p, s with
  | EmptyString, _ => true
  | String a p', String b s' => Ascii.eqb a b && prefixb p' s'
  | String _ _, EmptyString => false
  end.

(** [s.includes(p)] *)
Fixpoint includes (p s : string) : bool :=
  prefixb p s ||
  match s with
  | EmptyString => false
  | String _ s' => includes p s'
  end.

(** ** Candles *)

Inductive jsnum : Type :=
| NaN
| Fin (q : Q).

Record Candle : Type := mkCandle {
  time : jsval;
  open : jsnum;
  high : jsnum;
  low : jsnum;
  close : jsnum
}.

(** [a <= b] on numbers: false as soon as one side is [NaN]. *)
Definition num_leb (a b : jsnum) : bool :=
  match a, b with
  | Fin x, Fin y => Qle_bool x y
  | _, _ => false
  end.

(** [low <= open], [low <= close], [open <= high], [close <= high]. *)
Definition candle_ok (c : Candle) : bool :=
  num_leb (low c) (open c) && num_leb (low c) (close c) &&
  num_leb (open c) (high c) && num_leb (close c) (high c).

(** Order of two candles by [time], as strings are compared by [<=]
    (bytewise here; the timestamps of the providers are ASCII). *)
Definition time_leb (a b : Candle) : bool :=
  match time a, time b with
  | Some (JStr s), Some (JStr t) => String.leb s t
  | _, _ => false
  end.

Definition time_geb (a b : Candle) : bool := time_leb b a.

Fixpoint sorted_by {A : Type} (le : A -> A -> bool) (l : list A) : bool :=
  match l with
  | [] => true
  | x :: rest =>
      match rest with
      | [] => true
      | y :: _ => le x y && sorted_by le rest
      end
  end.

(** Oldest first. *)
Definition sorted_ascending (l : list Candle) : bool := sorted_by time_leb l.

(** Newest first. *)
Definition sorted_descending (l : list Candle) : bool := sorted_by time_geb l.

(** ** The effects a request performs, in order *)

Inductive Event : Type :=
| EvCacheGet (key : string)
| EvCacheSet (key : string)
| EvFetch (url : string)
| EvDemo.

Definition is_fetch (e : Event) : bool :=
  match e with EvFetch _ => true | _ => false end.

Definition is_cache_set (e : Event) : bool :=
  match e with EvCacheSet _ => true | _ => false end.

Definition network_calls (evs : list Event) : nat :=
  length (List.filter is_fetch evs).

(** ** CACHE SYSTEM *)

Record CacheEntry : Type := mkEntry {
  data : list Candle;
  timestamp : Z
}.

Module Cache.

Record t : Type := mk {
  cache : gmap string CacheEntry;
  ttl : Z
}.

(** [new Cache(ttl)] *)
Definition new (ttl : Z) : t := {| cache := ∅; ttl := ttl |}.

(** [get(key)], with [now] the value of [Date.now()]. The result is the
    returned value ([None] is [null]) and the cache afterwards. *)
Definition get (c : t) (now : Z) (key : string) : option (list Candle) * t :=
  match cache c !! key with
  | None => (None, c)
  | Some item =>
      if (now - timestamp item >? ttl c)%Z
      then (None, {| cache := delete key (cache c); ttl := ttl c |})
      else (Some (data item), c)
  end.

(** [set(key, data)], with [now] the value of [Date.now()]. *)
Definition set (c : t) (now : Z) (key : string) (d : list Candle) : t :=
  {| cache := <[key := {| data := d; timestamp := now |}]> (cache c);
     ttl := ttl c |}.

Definition clear (c : t) : t := {| cache := ∅; ttl := ttl c |}.

Definition size (c : t) : nat := base.size (cache c).

End Cache.

(** ** DEMO DATA GENERATOR *)

(** [Math.max] and [Math.min] *)
Definition Math_max (a b : Q) : Q := if Qle_bool a b then b else a.
Definition Math_min (a b : Q) : Q := if Qle_bool a b then a else b.

(** [x.toFixed(5)] as the integer [n] for which [n / 10^5] is closest to
    [x], the tie going away from zero: [toFixed] rounds the absolute value,
    picking the larger candidate, and puts the sign back. *)
Definition toFixed5 (x : Q) : Z :=
  if Qle_bool 0 x
  then Qfloor (x * 100000 + (1 # 2))%Q
  else (- Qfloor (- x * 100000 + (1 # 2))%Q)%Z.

(** [parseFloat(x.toFixed(5))] *)
Definition round5 (x : Q) : Q := toFixed5 x # 100000.

(** Decimal digits of [n >= 0], padded on the left with zeros to [w]. *)
Definition pad (w : nat) (n : Z) : string :=
  let digits := pretty (Z.to_nat n) in
  String.concat "" (replicate (w - String.length digits) "0") ++ digits.

(** Year, month and day of the day number [z] (days since 1970-01-01) in the
    proleptic Gregorian calendar, which is the calendar of [Date]. *)
Definition civil_from_days (z : Z) : Z * Z * Z :=
  let z := (z + 719468)%Z in
  let era := (z / 146097)%Z in
  let doe := (z - era * 146097)%Z in
  let yoe := ((doe - doe / 1460 + doe / 36524 - doe / 146096) / 365)%Z in
  let doy := (doe - (365 * yoe + yoe / 4 - yoe / 100))%Z in
  let mp := ((5 * doy + 2) / 153)%Z in
  let d := (doy - (153 * mp + 2) / 5 + 1)%Z in
  let m := (if mp <? 10 then mp + 3 else mp - 9)%Z in
  let y := (yoe + era * 400 + (if m <=? 2 then 1 else 0))%Z in
  (y, m, d).

(** [new Date(ms).toISOString().split('T')[0]] *)
Definition isoDate (ms : Z) : string :=
  let '(y, m, d) := civil_from_days (ms / 86400000) in
  let year :=
    if ((0 <=? y) && (y <=? 9999))%Z then pad 4 y
    else (if (y <? 0)%Z then "-" else "+") ++ pad 6 (Z.abs y) in
  year ++ "-" ++ pad 2 m ++ "-" ++ pad 2 d.

(** The body of the [for] loop of [generateDemoCandles], run [fuel] more
    times from index [i]; the loop starts with [fuel = count] and [i = 0], so
    that [fuel = count - i] throughout and it stops when [i < count] fails.
    [random k] is the value of the [k]-th call of [Math.random()] and
    [now i] the value of [Date.now()] in iteration [i]. *)
Fixpoint demo_loop (random : nat -> Q) (now : nat -> Z) (count : nat)
    (volatility : Q) (fuel i : nat) (price : Q) (candles : list Candle)
    : list Candle :=
  match fuel with
  | O => candles
  | S fuel' =>
      let change := ((random (4 * i)%nat - (1 # 2)) * volatility)%Q in
      let price := (price + change)%Q in
      let open_ := price in
      let close_ :=
        (price + (random (4 * i + 1)%nat - (1 # 2)) * volatility * (1 # 2))%Q in
      let high_ :=
        (Math_max open_ close_ + random (4 * i + 2)%nat * volatility * (3 # 10))%Q in
      let low_ :=
        (Math_min open_ close_ - random (4 * i + 3)%nat * volatility * (3 # 10))%Q in
      let candles := (candles ++ [
        {| time := Some (JStr (isoDate
                     (now i - (Z.of_nat count - Z.of_nat i) * 86400000)%Z));
           open := Fin (round5 open_);
           high := Fin (round5 high_);
           low := Fin (round5 low_);
           close := Fin (round5 close_) |} ])%list in
      demo_loop random now count volatility fuel' (S i) close_ candles
  end.

Definition generateDemoCandles (random : nat -> Q) (now : nat -> Z)
    (count : nat) (basePrice volatility : Q) : list Candle :=
  demo_loop random now count volatility count 0 basePrice [].

(** [Math.random()] returns a number of [0, 1). *)
Definition is_random (random : nat -> Q) : Prop :=
  forall k, (0 <= random k)%Q /\ (random k < 1)%Q.

(** [new Date(ms)] holds a time only for [|ms| <= 8.64e15]; beyond that the
    date is invalid. *)
Definition in_Date_range (ms : Z) : bool :=
  ((-8640000000000000 <=? ms) && (ms <=? 8640000000000000))%Z.

(** [new Date(ms).toISOString().split('T')[0]] on every [ms]: [toISOString]
    throws a [RangeError] on an invalid date, and [isoDate] is its result on
    the others. *)
Definition toISOString_date (ms : Z) : Exn string :=
  if in_Date_range ms then Ret (isoDate ms) else Throw "Invalid time value".

(** The loop of [generateDemoCandles] on every input: the iteration whose
    date [Date] cannot hold throws, inside the argument of [candles.push],
    and the candles built so far are lost. [demo_loop] above is this loop on
    the inputs that keep every date in range. *)
Fixpoint demo_loop_exn (random : nat -> Q) (now : nat -> Z) (count : nat)
    (volatility : Q) (fuel i : nat) (price : Q) (candles : list Candle)
    : Exn (list Candle) :=
  match fuel with
  | O => Ret candles
  | S fuel' =>
      let change := ((random (4 * i)%nat - (1 # 2)) * volatility)%Q in
      let price := (price + change)%Q in
      let open_ := price in
      let close_ :=
        (price + (random (4 * i + 1)%nat - (1 # 2)) * volatility * (1 # 2))%Q in
      let high_ :=
        (Math_max open_ close_ + random (4 * i + 2)%nat * volatility * (3 # 10))%Q in
      let low_ :=
        (Math_min open_ close_ - random (4 * i + 3)%nat * volatility * (3 # 10))%Q in
      date ← toISOString_date
               (now i - (Z.of_nat count - Z.of_nat i) * 86400000)%Z;
      let candles := (candles ++ [
        {| time := Some (JStr date);
           open := Fin (round5 open_);
           high := Fin (round5 high_);
           low := Fin (round5 low_);
           close := Fin (round5 close_) |} ])%list in
      demo_loop_exn random now count volatility fuel' (S i) close_ candles
  end.

(** [generateDemoCandles(count, basePrice, volatility)] on every input. *)
Definition generateDemoCandles_exn (random : nat -> Q) (now : nat -> Z)
    (count : nat) (basePrice volatility : Q) : Exn (list Candle) :=
  demo_loop_exn random now count volatility count 0 basePrice [].

(** ** The outside world of one request *)

(** What [await fetch(url, {timeout: 10000})] and [await res.json()] give. *)
Inductive FetchOutcome : Type :=
| Rejected (message : string)
    (* fetch rejects: network error or timeout *)
| Responded (ok : bool) (status : nat) (statusText : string) (body : Exn json).
    (* a response; [body] is the outcome of [res.json()] *)

Record Oracle : Type := mkOracle {
  random : nat -> Q;       (* the successive values of Math.random() *)
  demo_clock : nat -> Z;   (* Date.now() in iteration i of the generator *)
  t_get : Z;               (* Date.now() inside cache.get *)
  t_set : Z;               (* Date.now() inside cache.set *)
  upstream : FetchOutcome  (* the provider's answer, if it is asked *)
}.

(** ** HTTP responses *)

Inductive Body : Type :=
| Candles (candles : list Candle)          (* { candles } *)
| Failure (error : string) (message : string).  (* { error, message } *)

Record Response : Type := mkResponse {
  status : nat;
  body : Body
}.

(** [res.json(b)] without [res.status] answers 200. *)
Definition json_ok (b : Body) : Response := {| status := 200; body := b |}.

(** [!pair] for [req.query.pair], a string or [undefined]. *)
Definition missing (pair : option string) : bool :=
  match pair with
  | None => true
  | Some s => String.eqb s ""
  end.

(** The characters of [req.query.pair] once [!pair] has failed. *)
Definition pair_text (pair : option string) : string :=
  match pair with
  | Some s => s
  | None => ""
  end.

Definition MISSING_PAIR : Response :=
  {| status := 400;
     body := Failure "MISSING_PAIR" "Pair parameter is required" |}.

Definition SERVER_ERROR (message : string) : Response :=
  {| status := 500; body := Failure "SERVER_ERROR" message |}.

(** [`${v}`] for an environment variable, a string or [undefined]. *)
Definition env_text (v : option string) : string :=
  match v with
  | Some s => s
  | None => "undefined"
  end.

(** [catch (error)] of [fetchCandles], the same in both variants. *)
Definition rethrow {A : Type} (message : string) : Exn A :=
  if String.eqb message "API_LIMIT_REACHED"
  then Throw "API_LIMIT"
  else Throw message.

(** ** The Twelve Data server *)

Module TwelveData.
Section Server.

Variable API_KEY : option string.       (* process.env.TWELVEDATA_API_KEY *)
Variable DEMO_MODE : bool.              (* process.env.DEMO_MODE === 'true' *)
Variable parseFloat : jsval -> Exn jsnum.  (* the built-in parseFloat *)
Variable ToString : jsval -> Exn string.   (* [`${v}`] of a JSON value *)

(** [intervalMap[interval]]; the table's values are non-empty strings, so
    [||] falls back to [interval] exactly when the key is not in the table
    (names inherited from [Object.prototype] are not modelled). *)
Definition intervalMap (interval : string) : option string :=
  if String.eqb interval "daily" then Some "1day"
  else if String.eqb interval "60min" then Some "1h"
  else if String.eqb interval "15min" then Some "15min"
  else None.

Definition twelveDataUrl (pair interval : string) : string :=
  let symbol := slice 0 3 pair ++ "/" ++ slice 3 6 pair in
  let mappedInterval :=
    match intervalMap interval with
    | Some m => m
    | None => interval
    end in
  "https://api.twelvedata.com/time_series?symbol=" ++ symbol ++
  "&interval=" ++ mappedInterval ++ "&outputsize=100&apikey=" ++
  env_text API_KEY.

(** The callback of [data.values.map]. *)
Definition toCandle (item : json) : Exn Candle :=
  datetime ← get_field item "datetime";
  o ← get_field item "open";
  open ← parseFloat o;
  h ← get_field item "high";
  high ← parseFloat h;
  l ← get_field item "low";
  low ← parseFloat l;
  c ← get_field item "close";
  close ← parseFloat c;
  Ret {| time := datetime;
         open := open;
         high := high;
         low := low;
         close := close |}.

(** The [try] block of [fetchCandles] from [res] on, up to [result]. *)
Definition parse (res : FetchOutcome) : Exn (list Candle) :=
  match res with
  | Rejected message => Throw message
  | Responded ok status statusText body =>
      if negb ok
      then Throw ("HTTP " ++ pretty status ++ ": " ++ statusText)
      else
        data ← body;
        st ← get_field data "status";
        if strict_eq_str st "error"
        then
          message ← get_field data "message";
          text ← ToString message;
          Throw ("API_ERROR: " ++ text)
        else
          code ← get_field data "code";
          if strict_eq_num code 429
          then Throw "API_LIMIT_REACHED"
          else
            values ← get_field data "values";
            if negb (truthy values) || negb (isArray values)
            then Throw "NO_TIME_SERIES_DATA"
            else
              match values with
              | Some (JArr items) =>
                  candles ← mapM toCandle items;
                  Ret (rev candles)
              | _ => Throw "NO_TIME_SERIES_DATA"
              end
  end.

(** [fetchCandles(url, pair, interval)]. A cached value is an array, which
    is truthy even when empty, so [if (cached)] is the test for a hit. *)
Definition fetchCandles (t_get t_set : Z) (upstream : FetchOutcome)
    (url pair interval : string) (c : Cache.t)
    : Exn (list Candle) * Cache.t * list Event :=
  let cacheKey := pair ++ "-" ++ interval in
  let '(cached, c) := Cache.get c t_get cacheKey in
  match cached with
  | Some candles => (Ret candles, c, [EvCacheGet cacheKey])
  | None =>
      match parse upstream with
      | Ret result =>
          (Ret result, Cache.set c t_set cacheKey result,
           [EvCacheGet cacheKey; EvFetch url; EvCacheSet cacheKey])
      | Throw message =>
          (rethrow message, c, [EvCacheGet cacheKey; EvFetch url])
      end
  end.

Definition API_LIMIT_REACHED : Response :=
  {| status := 429;
     body := Failure "API_LIMIT_REACHED"
       "Twelve Data API limit reached. Please try again later or enable DEMO_MODE." |}.

(** The three candle handlers differ in the interval they ask for and in
    the volatility of their demo data only. [fetchCandles] returns an array
    or throws, so the [if (!candles)] of the handlers never fires. *)
Definition candles_route (interval : string) (volatility : Q)
    (w : Oracle) (pair : option string) (c : Cache.t)
    : Response * Cache.t * list Event :=
  if missing pair then (MISSING_PAIR, c, [])
  else
    let pair := pair_text pair in
    if DEMO_MODE
    then
      let candles :=
        generateDemoCandles (random w) (demo_clock w) 100 (115 # 100) volatility in
      (json_ok (Candles candles), c, [EvDemo])
    else
      let url := twelveDataUrl pair interval in
      let '(r, c, evs) :=
        fetchCandles (t_get w) (t_set w) (upstream w) url pair interval c in
      match r with
      | Ret candles => (json_ok (Candles candles), c, evs)
      | Throw message =>
          if String.eqb message "API_LIMIT"
          then (API_LIMIT_REACHED, c, evs)
          else (SERVER_ERROR message, c, evs)
      end.

(** [app.get("/api/daily")], [app.get("/api/h1")], [app.get("/api/m15")] *)
Definition api_daily := candles_route "daily" (1 # 100).
Definition api_h1 := candles_route "60min" (5 # 1000).
Definition api_m15 := candles_route "15min" (2 # 1000).

End Server.
End TwelveData.

(** ** The AlphaVantage server *)

Module AlphaVantage.
Section Server.

Variable API_KEY : option string.       (* process.env.ALPHAVANTAGE_API_KEY *)
Variable DEMO_MODE : bool.              (* process.env.DEMO_MODE === 'true' *)
Variable parseFloat : jsval -> Exn jsnum.  (* the built-in parseFloat *)
Variable ToString : jsval -> Exn string.   (* [`${v}`] of a JSON value *)

Definition alphaUrl (pair interval : string) : string :=
  let base := slice 0 3 pair in
  let quote := slice 3 6 pair in
  if String.eqb interval "daily"
  then
    "https://www.alphavantage.co/query?function=FX_DAILY&from_symbol=" ++ base ++
    "&to_symbol=" ++ quote ++ "&apikey=" ++ env_text API_KEY
  else
    "https://www.alphavantage.co/query?function=FX_INTRADAY&from_symbol=" ++ base ++
    "&to_symbol=" ++ quote ++ "&interval=" ++ interval ++
    "&apikey=" ++ env_text API_KEY.

(** The callback of [Object.entries(series).map]. *)
Definition toCandle (entry : string * json) : Exn Candle :=
  let '(time, ohlc) := entry in
  o ← get_field ohlc "1. open";
  open ← parseFloat o;
  h ← get_field ohlc "2. high";
  high ← parseFloat h;
  l ← get_field ohlc "3. low";
  low ← parseFloat l;
  c ← get_field ohlc "4. close";
  close ← parseFloat c;
  Ret {| time := Some (JStr time);
         open := open;
         high := high;
         low := low;
         close := close |}.

(** [Object.entries(v)] for a value that may be [undefined]. *)
Definition entries_of (v : jsval) : Exn (list (string * json)) :=
  match v with
  | None => Throw "Cannot convert undefined or null to object"
  | Some o => entries o
  end.

(** The [try] block of [fetchCandles] from [res] on, up to [result]. A key
    that includes ["Time Series"] is a non-empty string, so [!key] holds
    exactly when [find] found none; such a key is the name of a field of an
    object, never an index of an array or of a string. *)
Definition parse (res : FetchOutcome) : Exn (list Candle) :=
  match res with
  | Rejected message => Throw message
  | Responded ok status statusText body =>
      if negb ok
      then Throw ("HTTP " ++ pretty status ++ ": " ++ statusText)
      else
        data ← body;
        note ← get_field data "Note";
        if truthy note
        then Throw "API_LIMIT_REACHED"
        else
          err ← get_field data "Error Message";
          if truthy err
          then
            text ← ToString err;
            Throw ("API_ERROR: " ++ text)
          else
            ks ← keys data;
            match find (fun k => includes "Time Series" k) ks with
            | None => Throw "NO_TIME_SERIES_DATA"
            | Some key =>
                series ← get_field data key;
                es ← entries_of series;
                candles ← mapM toCandle es;
                Ret (rev candles)
            end
  end.

(** [fetchCandles(url)]: the cache key is the URL itself. *)
Definition fetchCandles (t_get t_set : Z) (upstream : FetchOutcome)
    (url : string) (c : Cache.t)
    : Exn (list Candle) * Cache.t * list Event :=
  let cacheKey := url in
  let '(cached, c) := Cache.get c t_get cacheKey in
  match cached with
  | Some candles => (Ret candles, c, [EvCacheGet cacheKey])
  | None =>
      match parse upstream with
      | Ret result =>
          (Ret result, Cache.set c t_set cacheKey result,
           [EvCacheGet cacheKey; EvFetch url; EvCacheSet cacheKey])
      | Throw message =>
          (rethrow message, c, [EvCacheGet cacheKey; EvFetch url])
      end
  end.

Definition API_LIMIT_REACHED : Response :=
  {| status := 429;
     body := Failure "API_LIMIT_REACHED"
       "AlphaVantage API limit reached. Please try again later or enable DEMO_MODE." |}.

Definition candles_route (interval : string) (volatility : Q)
    (w : Oracle) (pair : option string) (c : Cache.t)
    : Response * Cache.t * list Event :=
  if missing pair then (MISSING_PAIR, c, [])
  else
    let pair := pair_text pair in
    if DEMO_MODE
    then
      let candles :=
        generateDemoCandles (random w) (demo_clock w) 100 (115 # 100) volatility in
      (json_ok (Candles candles), c, [EvDemo])
    else
      let url := alphaUrl pair interval in
      let '(r, c, evs) := fetchCandles (t_get w) (t_set w) (upstream w) url c in
      match r with
      | Ret candles => (json_ok (Candles candles), c, evs)
      | Throw message =>
          if String.eqb message "API_LIMIT"
          then (API_LIMIT_REACHED, c, evs)
          else (SERVER_ERROR message, c, evs)
      end.

(** [app.get("/api/daily")], [app.get("/api/h1")], [app.get("/api/m15")] *)
Definition api_daily := candles_route "daily" (1 # 100).
Definition api_h1 := candles_route "60min" (5 # 1000).
Definition api_m15 := candles_route "15min" (2 # 1000).

End Server.
End AlphaVantage.

(** ** Clear cache endpoint *)

(** [app.post("/api/cache/clear")]: the [cache_size] of the answer and the
    cache afterwards. *)
Definition api_cache_clear (c : Cache.t) : nat * Cache.t :=
  let c := Cache.clear c in
  (Cache.size c, c).

(** ** Instances of the built-ins for the concrete runs below *)

Definition digit (a : ascii) : option Z :=
  let n := nat_of_ascii a in
  if ((48 <=? n) && (n <=? 57))%nat then Some (Z.of_nat (n - 48)) else None.

(** The longest prefix of decimal digits of [s]: its value after [acc], the
    number of digits read, and the rest of [s]. *)
Fixpoint read_digits (s : string) (acc : Z) (n : nat) : Z * nat * string :=
  match s with
  | EmptyString => (acc, n, s)
  | String a rest =>
      match digit a with
      | Some d => read_digits rest (10 * acc + d)%Z (S n)
      | None => (acc, n, s)
      end
  end.

(** The [TypeError] of converting to a string an object that has no callable
    [toString] or [valueOf] to give a primitive: among the objects of a JSON
    document, those with a field of their own named [toString]. *)
Definition TypeError_primitive : string :=
  "Cannot convert object to primitive value".

(** [parseFloat] on a number, on a string that starts with a plain decimal
    literal (sign, digits, fraction; no exponent, no leading blank, no
    [Infinity]), on [undefined], [null], a boolean and an object; [NaN] when
    there is no digit to read. Arrays are not covered. *)
Definition parseFloat_decimal (v : jsval) : Exn jsnum :=
  match v with
  | Some (JNum q) => Ret (Fin q)
  | Some (JObj fields) =>
      match assoc "toString" fields with
      | Some _ => Throw TypeError_primitive
      | None => Ret NaN
      end
  | Some (JStr s) =>
      let '(negative, s) :=
        match s with
        | String "-" rest => (true, rest)
        | String "+" rest => (false, rest)
        | _ => (false, s)
        end in
      let '(ip, ni, rest) := read_digits s 0 0 in
      let '(fp, nf, _) :=
        match rest with
        | String "." rest' => read_digits rest' 0 0
        | _ => (0%Z, 0%nat, rest)
        end in
      if (ni + nf =? 0)%nat then Ret NaN
      else
        let q := (inject_Z ip + (fp # Pos.pow 10 (Pos.of_nat nf)))%Q in
        Ret (Fin (if negative then (- q)%Q else q))
  | _ => Ret NaN
  end.

(** [`${v}`] on [undefined], [null], booleans, strings and objects. Numbers
    and arrays are not covered. *)
Definition ToString_text (v : jsval) : Exn string :=
  match v with
  | Some (JStr s) => Ret s
  | Some (JBool true) => Ret "true"
  | Some (JBool false) => Ret "false"
  | Some JNull => Ret "null"
  | Some (JObj fields) =>
      match assoc "toString" fields with
      | Some _ => Throw TypeError_primitive
      | None => Ret "[object Object]"
      end
  | _ => Ret "undefined"
  end.

(** A quiet outside world around a given answer of the provider. *)
Definition oracle_of (now : Z) (answer : FetchOutcome) : Oracle :=
  {| random := fun _ => 1 # 2;
     demo_clock := fun _ => now;
     t_get := now;
     t_set := now;
     upstream := answer |}.

(** Answers of the providers used in the concrete runs. *)

Definition answer (data : json) : FetchOutcome :=
  Responded true 200 "OK" (Ret data).

Definition td_record (datetime : string) : json :=
  JObj [("datetime", JStr datetime); ("open", JStr "1.08500");
        ("high", JStr "1.09000"); ("low", JStr "1.08000");
        ("close", JStr "1.08700")].

(** A Twelve Data time series sent oldest first. *)
Definition td_oldest_first : json :=
  JObj [("meta", JObj [("symbol", JStr "EUR/USD"); ("interval", JStr "1day")]);
        ("values", JArr [td_record "2024-01-01"; td_record "2024-01-02"]);
        ("status", JStr "ok")].

(** The body Twelve Data sends when the credits of the minute are used up. *)
Definition td_rate_limited : json :=
  JObj [("code", JNum (inject_Z 429));
        ("message",
         JStr "You have run out of API credits for the current minute.");
        ("status", JStr "error")].

(** The same series sent newest first, and the candles it holds. *)
Definition td_newest_first : json :=
  JObj [("meta", JObj [("symbol", JStr "EUR/USD"); ("interval", JStr "1day")]);
        ("values", JArr [td_record "2024-01-02"; td_record "2024-01-01"]);
        ("status", JStr "ok")].

Definition td_candle (datetime : string) : Candle :=
  {| time := Some (JStr datetime);
     open := Fin (108500 # 100000);
     high := Fin (109000 # 100000);
     low := Fin (108000 # 100000);
     close := Fin (108700 # 100000) |}.

Definition EURUSD_daily_url : string :=
  TwelveData.twelveDataUrl (Some "KEY") "EURUSD" "daily".


(** ** Vocabulary of the further properties *)

(** The intervals the handlers pass to the upstream client. *)
Definition handler_interval (i : string) : Prop :=
  i = "daily" \/ i = "60min" \/ i = "15min".

(** The candle [c] carries the fields of the Twelve Data record [item]. *)
Definition td_fields (parseFloat : jsval -> Exn jsnum) (item : json) (c : Candle)
    : Prop :=
  get_field item "datetime" = Ret (time c) /\
  (exists o, get_field item "open" = Ret o /\ parseFloat o = Ret (open c)) /\
  (exists h, get_field item "high" = Ret h /\ parseFloat h = Ret (high c)) /\
  (exists l, get_field item "low" = Ret l /\ parseFloat l = Ret (low c)) /\
  (exists x, get_field item "close" = Ret x /\ parseFloat x = Ret (close c)).

(** The candle [c] carries the fields of the AlphaVantage entry [entry]. *)
Definition av_fields (parseFloat : jsval -> Exn jsnum) (entry : string * json)
    (c : Candle) : Prop :=
  time c = Some (JStr (fst entry)) /\
  (exists o, get_field (snd entry) "1. open" = Ret o /\ parseFloat o = Ret (open c)) /\
  (exists h, get_field (snd entry) "2. high" = Ret h /\ parseFloat h = Ret (high c)) /\
  (exists l, get_field (snd entry) "3. low" = Ret l /\ parseFloat l = Ret (low c)) /\
  (exists x, get_field (snd entry) "4. close" = Ret x /\ parseFloat x = Ret (close c)).

(** A response is either a 200 with candles or a 400, 429 or 500 with an
    error object. *)
Definition answer_shape (resp : Response) : Prop :=
  (status resp = 200%nat /\ exists candles, body resp = Candles candles) \/
  (In (status resp) [400; 429; 500]%nat /\
   exists error message, body resp = Failure error message).

Definition within (lo hi : Q) (x : jsnum) : Prop :=
  match x with
  | Fin q => (lo <= q)%Q /\ (q <= hi)%Q
  | NaN => False
  end.

(** The four prices of a candle lie between [lo] and [hi]. *)
Definition prices_within (lo hi : Q) (c : Candle) : Prop :=
  within lo hi (open c) /\ within lo hi (high c) /\
  within lo hi (low c) /\ within lo hi (close c).

(** The farthest a price of a series of [count] candles can be from
    [basePrice]: each iteration moves the running price by at most
    [volatility / 2] and then [volatility / 4], and the high and the low lie
    at most [0.3 * volatility] beyond the open and the close. *)
Definition reach (count : nat) (volatility : Q) : Q :=
  ((3 # 4) * inject_Z (Z.of_nat count) * volatility + (3 # 10) * volatility)%Q.

(** What a handler answers in demo mode: 100 candles, each with its low
    below and its high above its open and close, all prices within [reach]
    of 1.15. *)
Definition demo_series (volatility : Q) (cs : list Candle) : Prop :=
  length cs = 100%nat /\
  Forall (fun c => candle_ok c = true) cs /\
  Forall (prices_within (round5 ((115 # 100) - reach 100 volatility))
                        (round5 ((115 # 100) + reach 100 volatility))) cs.

(** A string of decimal digits, as the index keys of an array are. *)
Fixpoint digits_only (s : string) : bool :=
  match s with
  | EmptyString => true
  | String a rest =>
      match digit a with Some _ => digits_only rest | None => false end
  end.

(** The message of the error a body that is not an object ends in, [first]
    being the first property the variant reads of the body. *)
Definition malformed_message (first : string) (dt : json) : string :=
  match dt with
  | JNull => TypeError_null first
  | _ => "NO_TIME_SERIES_DATA"
  end.

(** * Properties *)

(** ** The cache *)

Section CacheFacts.

Implicit Types (c : Cache.t) (k : string) (v : list Candle).

Lemma get_absent c k now :
  Cache.cache c !! k = None -> Cache.get c now k = (None, c).
Proof. intros Hk. unfold Cache.get. now rewrite Hk. Qed.

Lemma get_fresh c k now item :
  Cache.cache c !! k = Some item ->
  (now - timestamp item <= Cache.ttl c)%Z ->
  Cache.get c now k = (Some (data item), c).
Proof.
  intros Hk Hage. unfold Cache.get. rewrite Hk.
  destruct (Z.gtb_spec (now - timestamp item) (Cache.ttl c)); [lia | reflexivity].
Qed.

Lemma get_stale c k now item :
  Cache.cache c !! k = Some item ->
  (now - timestamp item > Cache.ttl c)%Z ->
  Cache.get c now k =
    (None, {| Cache.cache := delete k (Cache.cache c); Cache.ttl := Cache.ttl c |}).
Proof.
  intros Hk Hage. unfold Cache.get. rewrite Hk.
  destruct (Z.gtb_spec (now - timestamp item) (Cache.ttl c)); [reflexivity | lia].
Qed.

Lemma set_lookup c k v now :
  Cache.cache (Cache.set c now k v) !! k = Some {| data := v; timestamp := now |}.
Proof. unfold Cache.set; simpl. apply lookup_insert_eq. Qed.

(** A read that misses leaves no entry under the key, and every entry that
    remains was there before, unchanged. *)
Lemma get_miss c k now c' :
  Cache.get c now k = (None, c') ->
  Cache.cache c' !! k = None /\ Cache.cache c' ⊆ Cache.cache c /\
  Cache.ttl c' = Cache.ttl c.
Proof.
  unfold Cache.get. destruct (Cache.cache c !! k) as [item|] eqn:Hk.
  - destruct (_ >? _)%Z; [|discriminate].
    intros [= <-]; simpl. split; [apply lookup_delete_eq|].
    split; [apply delete_subseteq | reflexivity].
  - intros [= <-]. auto.
Qed.

Lemma get_hit c k now v c' :
  Cache.get c now k = (Some v, c') ->
  c' = c /\ exists item, Cache.cache c !! k = Some item /\ data item = v /\
    (now - timestamp item <= Cache.ttl c)%Z.
Proof.
  unfold Cache.get. destruct (Cache.cache c !! k) as [item|] eqn:Hk; [|discriminate].
  destruct (Z.gtb_spec (now - timestamp item) (Cache.ttl c)); [discriminate|].
  intros [= <- <-]. split; [reflexivity|]. exists item. auto with lia.
Qed.

End CacheFacts.

(** C3. After [set(k, v)] at time [storedAt], a read of [k] at a time [t]
    with [t - storedAt <= ttl] returns [v] and leaves the cache as it is (so
    every further such read returns [v] too); a read with
    [t - storedAt > ttl] returns a miss, removes the entry, and the size
    after the read is one less than before it. *)
Theorem C3_set_then_get (c : Cache.t) (k : string) (v : list Candle)
    (storedAt t : Z) :
  let c' := Cache.set c storedAt k v in
  ((t - storedAt <= Cache.ttl c)%Z ->
     Cache.get c' t k = (Some v, c')) /\
  ((t - storedAt > Cache.ttl c)%Z ->
     fst (Cache.get c' t k) = None /\
     Cache.cache (snd (Cache.get c' t k)) !! k = None /\
     Cache.size c' = S (Cache.size (snd (Cache.get c' t k)))).
Proof.
  intros c'. pose proof (set_lookup c k v storedAt) as Hk. fold c' in Hk.
  split; intros Hage.
  - rewrite (get_fresh c' k t _ Hk); [reflexivity | simpl; exact (Hage)].
  - rewrite (get_stale c' k t _ Hk) by (simpl; exact Hage). simpl.
    split; [reflexivity|]. split; [apply lookup_delete_eq|].
    unfold Cache.size; simpl. rewrite delete_insert_eq.
    rewrite <- (insert_delete_eq (Cache.cache c)).
    apply map_size_insert_None, lookup_delete_eq.
Qed.

Lemma C3_set_then_get_witness :
  Cache.get (Cache.set (Cache.new 300000) 1000 "EURUSD-daily" []) 301000 "EURUSD-daily"
    = (Some [], Cache.set (Cache.new 300000) 1000 "EURUSD-daily" []) /\
  fst (Cache.get (Cache.set (Cache.new 300000) 1000 "EURUSD-daily" []) 301001 "EURUSD-daily")
    = None.
Proof.
  split.
  - apply (proj1 (C3_set_then_get (Cache.new 300000) "EURUSD-daily" [] 1000 301000)).
    simpl. lia.
  - apply (proj2 (C3_set_then_get (Cache.new 300000) "EURUSD-daily" [] 1000 301001)).
    simpl. lia.
Defined.

(** C7. [get] changes the cache by lazy expiry only: on a key without entry
    the cache is unchanged, and on a hit it is unchanged as well, so the
    entry keeps its timestamp and a later read expires it exactly when it
    would have expired without the hit. *)
Theorem C7_get_frame (c : Cache.t) (k : string) (t : Z) :
  (Cache.cache c !! k = None -> Cache.get c t k = (None, c)) /\
  (forall item, Cache.cache c !! k = Some item ->
     (t - timestamp item <= Cache.ttl c)%Z ->
     Cache.get c t k = (Some (data item), c) /\
     Cache.cache (snd (Cache.get c t k)) !! k = Some item /\
     forall t', Cache.get (snd (Cache.get c t k)) t' k = Cache.get c t' k).
Proof.
  split.
  - apply get_absent.
  - intros item Hk Hage. rewrite (get_fresh c k t item Hk Hage). simpl. auto.
Qed.

Lemma C7_get_frame_witness :
  Cache.get (Cache.new 300000) 5000 "EURUSD-daily" = (None, Cache.new 300000) /\
  Cache.cache
    (snd (Cache.get (Cache.set (Cache.new 300000) 1000 "EURUSD-daily" []) 5000
            "EURUSD-daily")) !! "EURUSD-daily"
    = Some {| data := []; timestamp := 1000 |}.
Proof.
  split.
  - apply (proj1 (C7_get_frame (Cache.new 300000) "EURUSD-daily" 5000)).
    reflexivity.
  - apply (proj2 (C7_get_frame (Cache.set (Cache.new 300000) 1000 "EURUSD-daily" [])
                    "EURUSD-daily" 5000)
             {| data := []; timestamp := 1000 |}).
    + reflexivity.
    + simpl. lia.
Defined.

(** C8. After [clear()] the size is 0 and a read of any key, at any time,
    is a miss; the cache-clearing route reports [cache_size: 0]. *)
Theorem C8_clear (c : Cache.t) :
  Cache.size (Cache.clear c) = 0%nat /\
  fst (api_cache_clear c) = 0%nat /\
  forall k t, Cache.get (Cache.clear c) t k = (None, Cache.clear c).
Proof.
  split; [|split].
  - unfold Cache.size, Cache.clear; simpl. apply map_size_empty.
  - unfold api_cache_clear, Cache.size, Cache.clear; simpl. apply map_size_empty.
  - intros k t. apply get_absent. unfold Cache.clear; simpl. apply lookup_empty.
Qed.

(** ** The demo generator *)

Section DemoFacts.

Lemma toFixed5_mono (x y : Q) : (x <= y)%Q -> (toFixed5 x <= toFixed5 y)%Z.
Proof.
  intros Hxy. unfold toFixed5.
  destruct (Qle_bool 0 x) eqn:Hx, (Qle_bool 0 y) eqn:Hy.
  - apply Qfloor_resp_le. lra.
  - apply Qle_bool_iff in Hx.
    assert (~ (0 <= y)%Q) by (rewrite <- Qle_bool_iff; congruence). lra.
  - assert (~ (0 <= x)%Q) by (rewrite <- Qle_bool_iff; congruence).
    apply Qle_bool_iff in Hy.
    assert (0 <= Qfloor (- x * 100000 + (1 # 2)))%Z
      by (change 0%Z with (Qfloor 0); apply Qfloor_resp_le; lra).
    assert (0 <= Qfloor (y * 100000 + (1 # 2)))%Z
      by (change 0%Z with (Qfloor 0); apply Qfloor_resp_le; lra).
    lia.
  - assert (Qfloor (- y * 100000 + (1 # 2)) <= Qfloor (- x * 100000 + (1 # 2)))%Z
      by (apply Qfloor_resp_le; lra).
    lia.
Qed.

Lemma round5_mono (x y : Q) : (x <= y)%Q -> (round5 x <= round5 y)%Q.
Proof.
  intros Hxy. apply toFixed5_mono in Hxy.
  unfold round5, Qle; simpl. lia.
Qed.

Lemma Math_max_l (a b : Q) : (a <= Math_max a b)%Q.
Proof.
  unfold Math_max. destruct (Qle_bool a b) eqn:H.
  - now apply Qle_bool_iff. 
  - lra.
Qed.
Lemma Math_max_r (a b : Q) : (b <= Math_max a b)%Q.
Proof.
  unfold Math_max. destruct (Qle_bool a b) eqn:H.
  - lra.
  - assert (~ (a <= b)%Q) by (rewrite <- Qle_bool_iff; congruence). lra.
Qed.
Lemma Math_min_l (a b : Q) : (Math_min a b <= a)%Q.
Proof.
  unfold Math_min. destruct (Qle_bool a b) eqn:H.
  - lra.
  - assert (~ (a <= b)%Q) by (rewrite <- Qle_bool_iff; congruence). lra.
Qed.
Lemma Math_min_r (a b : Q) : (Math_min a b <= b)%Q.
Proof.
  unfold Math_min. destruct (Qle_bool a b) eqn:H.
  - now apply Qle_bool_iff.
  - lra.
Qed.

Lemma offset_nonneg (r v : Q) : (0 <= r)%Q -> (0 <= v)%Q -> (0 <= r * v * (3 # 10))%Q.
Proof.
  intros Hr Hv. pose proof (Qmult_le_0_compat r v Hr Hv). lra.
Qed.

Lemma demo_loop_length random now count volatility fuel i price candles :
  length (demo_loop random now count volatility fuel i price candles)
  = (length candles + fuel)%nat.
Proof.
  revert i price candles. induction fuel as [|fuel IH]; intros i price candles; simpl.
  - lia.
  - rewrite IH, length_app. simpl. lia.
Qed.

Lemma demo_loop_ok random now count volatility fuel i price candles :
  (0 <= volatility)%Q -> (forall k, (0 <= random k)%Q) ->
  Forall (fun c => candle_ok c = true) candles ->
  Forall (fun c => candle_ok c = true)
    (demo_loop random now count volatility fuel i price candles).
Proof.
  intros Hv Hr. revert i price candles.
  induction fuel as [|fuel IH]; intros i price candles Hok; cbn [demo_loop];
    [exact Hok|].
  apply IH. apply Forall_app. split; [exact Hok|].
  constructor; [|constructor].
  set (o := (price + (random (4 * i)%nat - (1 # 2)) * volatility)%Q).
  set (cl := (o + (random (4 * i + 1)%nat - (1 # 2)) * volatility * (1 # 2))%Q).
  pose proof (offset_nonneg _ _ (Hr (4 * i + 2)%nat) Hv).
  pose proof (offset_nonneg _ _ (Hr (4 * i + 3)%nat) Hv).
  pose proof (Math_max_l o cl). pose proof (Math_max_r o cl).
  pose proof (Math_min_l o cl). pose proof (Math_min_r o cl).
  unfold candle_ok; cbn [low open high close num_leb].
  rewrite !andb_true_iff, !Qle_bool_iff.
  repeat split; apply round5_mono. all: lra.
Qed.

End DemoFacts.

Section DemoDates.

Variable random : nat -> Q.
Variable now : nat -> Z.
Variable count : nat.
Variable volatility : Q.

#[local] Arguments in_Date_range : simpl never.

(** While the dates stay in range the loop is [demo_loop]. *)
Lemma demo_loop_exn_in_range fuel i price candles :
  (forall j, (i <= j < i + fuel)%nat ->
     in_Date_range (now j - (Z.of_nat count - Z.of_nat j) * 86400000) = true) ->
  demo_loop_exn random now count volatility fuel i price candles
    = Ret (demo_loop random now count volatility fuel i price candles).
Proof.
  revert i price candles.
  induction fuel as [|fuel IH]; intros i price candles Hrange;
    cbn [demo_loop_exn demo_loop]; [reflexivity|].
  unfold toISOString_date. rewrite (Hrange i) by lia. simpl.
  apply IH. intros j Hj. apply Hrange. lia.
Qed.


End DemoDates.





(** ** Order of the returned candles *)

Section SortedFacts.
Context {A : Type} (le : A -> A -> bool).

Lemma sorted_by_snoc (l : list A) (x : A) :
  sorted_by le l = true ->
  (forall y, head (rev l) = Some y -> le y x = true) ->
  sorted_by le (l ++ [x]) = true.
Proof.
  induction l as [|a [|b l] IH]; intros Hs Hlast.
  - reflexivity.
  - simpl. rewrite (Hlast a); reflexivity.
  - change (le a b && sorted_by le ((b :: l) ++ [x]) = true).
    change (le a b && sorted_by le (b :: l) = true) in Hs.
    apply andb_true_iff in Hs as [Hab Hs]. rewrite Hab; simpl.
    apply IH; [exact Hs|]. intros y Hy. apply Hlast.
    simpl in *. destruct (rev l ++ [b])%list; [discriminate | exact Hy].
Qed.

Lemma sorted_by_rev (l : list A) :
  sorted_by (fun a b => le b a) l = true -> sorted_by le (rev l) = true.
Proof.
  induction l as [|a l IH]; intros Hs; [reflexivity|].
  simpl. apply sorted_by_snoc.
  - apply IH. destruct l; [reflexivity|].
    change ((le a0 a && sorted_by (fun a b => le b a) (a0 :: l)) = true) in Hs.
    now apply andb_true_iff in Hs.
  - rewrite rev_involutive. intros y Hy. destruct l as [|b l]; [discriminate|].
    injection Hy as ->.
    change ((le y a && sorted_by (fun a b => le b a) (y :: l)) = true) in Hs.
    now apply andb_true_iff in Hs.
Qed.
End SortedFacts.

Lemma descending_rev (l : list Candle) :
  sorted_descending l = true -> sorted_ascending (rev l) = true.
Proof. apply sorted_by_rev. Qed.

(** ** The upstream client *)

Section FetchFacts.

#[local] Arguments get_field : simpl never.
#[local] Arguments keys : simpl never.
#[local] Arguments strict_eq_str : simpl never.
#[local] Arguments strict_eq_num : simpl never.
#[local] Arguments truthy : simpl never.
#[local] Arguments isArray : simpl never.
#[local] Arguments AlphaVantage.entries_of : simpl never.

Variable parseFloat : jsval -> Exn jsnum.
Variable ToString : jsval -> Exn string.

Lemma rethrow_throws {A : Type} (m : string) :
  exists m', @rethrow A m = Throw m'.
Proof. unfold rethrow. destruct (String.eqb m _); eauto. Qed.

Lemma td_parse_ok (up : FetchOutcome) (result : list Candle) :
  TwelveData.parse parseFloat ToString up = Ret result ->
  exists st stt dt items candles,
    up = Responded true st stt (Ret dt) /\
    (forall s, get_field dt "status" = Ret s -> strict_eq_str s "error" = false) /\
    get_field dt "values" = Ret (Some (JArr items)) /\
    mapM (TwelveData.toCandle parseFloat) items = Ret candles /\
    result = rev candles.
Proof.
  destruct up as [m | ok st stt [e | dt]]; simpl; try discriminate.
  - destruct ok; discriminate.
  - destruct ok; simpl; [|discriminate].
    destruct (get_field dt "status") as [|s] eqn:Hs; simpl; [discriminate|].
    destruct (strict_eq_str s "error") eqn:Herr.
    { destruct (get_field dt "message") as [|message]; simpl; [discriminate|].
      destruct (ToString message); discriminate. }
    destruct (get_field dt "code") as [|code] eqn:Hc; simpl; [discriminate|].
    destruct (strict_eq_num code 429); [discriminate|].
    destruct (get_field dt "values") as [|values] eqn:Hv; simpl; [discriminate|].
    destruct (negb (truthy values) || negb (isArray values)); [discriminate|].
    destruct values as [[| | | |items|]|]; try discriminate.
    destruct (mapM _ items) as [|candles] eqn:Hm; simpl; [discriminate|].
    intros [= <-]. exists st, stt, dt, items, candles.
    repeat split; try reflexivity; try assumption.
    intros s' Hs'. rewrite Hs in Hs'. now injection Hs' as <-.
Qed.

Lemma av_parse_ok (up : FetchOutcome) (result : list Candle) :
  AlphaVantage.parse parseFloat ToString up = Ret result ->
  exists st stt dt ks key series es candles,
    up = Responded true st stt (Ret dt) /\
    keys dt = Ret ks /\
    find (fun k => includes "Time Series" k) ks = Some key /\
    get_field dt key = Ret series /\
    AlphaVantage.entries_of series = Ret es /\
    mapM (AlphaVantage.toCandle parseFloat) es = Ret candles /\
    result = rev candles.
Proof.
  destruct up as [m | ok st stt [e | dt]]; simpl; try discriminate.
  - destruct ok; discriminate.
  - destruct ok; simpl; [|discriminate].
    destruct (get_field dt "Note") as [|note]; simpl; [discriminate|].
    destruct (truthy note); [discriminate|].
    destruct (get_field dt "Error Message") as [|err]; simpl; [discriminate|].
    destruct (truthy err); [destruct (ToString err); discriminate|].
    destruct (keys dt) as [|ks] eqn:Hks; simpl; [discriminate|].
    destruct (find _ ks) as [key|] eqn:Hkey; [|discriminate].
    destruct (get_field dt key) as [|series] eqn:Hser; simpl; [discriminate|].
    destruct (AlphaVantage.entries_of series) as [|es] eqn:Hes; simpl; [discriminate|].
    destruct (mapM _ es) as [|candles] eqn:Hm; simpl; [discriminate|].
    intros [= <-]. exists st, stt, dt, ks, key, series, es, candles. auto 10.
Qed.

Lemma td_fetch_miss t1 t2 up url pair interval c c1 :
  Cache.get c t1 (pair ++ "-" ++ interval) = (None, c1) ->
  TwelveData.fetchCandles parseFloat ToString t1 t2 up url pair interval c =
    match TwelveData.parse parseFloat ToString up with
    | Ret result =>
        (Ret result, Cache.set c1 t2 (pair ++ "-" ++ interval) result,
         [EvCacheGet (pair ++ "-" ++ interval); EvFetch url;
          EvCacheSet (pair ++ "-" ++ interval)])
    | Throw m =>
        (rethrow m, c1, [EvCacheGet (pair ++ "-" ++ interval); EvFetch url])
    end.
Proof. intros Hg. unfold TwelveData.fetchCandles. rewrite Hg. reflexivity. Qed.

Lemma td_fetch_hit t1 t2 up url pair interval c v c1 :
  Cache.get c t1 (pair ++ "-" ++ interval) = (Some v, c1) ->
  TwelveData.fetchCandles parseFloat ToString t1 t2 up url pair interval c =
    (Ret v, c, [EvCacheGet (pair ++ "-" ++ interval)]).
Proof.
  intros Hg. unfold TwelveData.fetchCandles. rewrite Hg.
  apply get_hit in Hg as [-> _]. reflexivity.
Qed.

Lemma av_fetch_miss t1 t2 up url c c1 :
  Cache.get c t1 url = (None, c1) ->
  AlphaVantage.fetchCandles parseFloat ToString t1 t2 up url c =
    match AlphaVantage.parse parseFloat ToString up with
    | Ret result =>
        (Ret result, Cache.set c1 t2 url result,
         [EvCacheGet url; EvFetch url; EvCacheSet url])
    | Throw m => (rethrow m, c1, [EvCacheGet url; EvFetch url])
    end.
Proof. intros Hg. unfold AlphaVantage.fetchCandles. rewrite Hg. reflexivity. Qed.

Lemma av_fetch_hit t1 t2 up url c v c1 :
  Cache.get c t1 url = (Some v, c1) ->
  AlphaVantage.fetchCandles parseFloat ToString t1 t2 up url c =
    (Ret v, c, [EvCacheGet url]).
Proof.
  intros Hg. unfold AlphaVantage.fetchCandles. rewrite Hg.
  apply get_hit in Hg as [-> _]. reflexivity.
Qed.

End FetchFacts.

(** C2 fails as stated: a Twelve Data series that arrives oldest first is
    accepted by the classifier and returned newest first. *)
Lemma C2_oldest_first_upstream :
  exists result c' evs,
    TwelveData.fetchCandles parseFloat_decimal ToString_text 1000 1000
      (answer td_oldest_first) EURUSD_daily_url "EURUSD" "daily"
      (Cache.new 300000) = (Ret result, c', evs) /\
    map time result = [Some (JStr "2024-01-02"); Some (JStr "2024-01-01")] /\
    sorted_ascending result = false.
Proof.
  eexists _, _, _. split; [vm_compute; reflexivity|]. split; reflexivity.
Qed.

(** C2, as the code has it. A call of [fetchCandles] that misses the cache
    and succeeds returns the candles of the upstream series in reverse
    order: for Twelve Data the records of [data.values], for AlphaVantage
    the entries of the first field whose name includes ["Time Series"]. So
    the result is sorted ascending by time whenever the upstream series is
    sorted descending (newest first). *)
Theorem C2_reverse_of_upstream (parseFloat : jsval -> Exn jsnum)
    (ToString : jsval -> Exn string) (t1 t2 : Z) (up : FetchOutcome)
    (url pair interval : string) (c c' : Cache.t) (result : list Candle)
    (evs : list Event) :
  (fst (Cache.get c t1 (pair ++ "-" ++ interval)) = None ->
   TwelveData.fetchCandles parseFloat ToString t1 t2 up url pair interval c
     = (Ret result, c', evs) ->
   exists st stt dt items candles,
     up = Responded true st stt (Ret dt) /\
     get_field dt "values" = Ret (Some (JArr items)) /\
     mapM (TwelveData.toCandle parseFloat) items = Ret candles /\
     result = rev candles /\
     (sorted_descending candles = true -> sorted_ascending result = true)) /\
  (fst (Cache.get c t1 url) = None ->
   AlphaVantage.fetchCandles parseFloat ToString t1 t2 up url c
     = (Ret result, c', evs) ->
   exists st stt dt ks key series es candles,
     up = Responded true st stt (Ret dt) /\
     keys dt = Ret ks /\
     find (fun k => includes "Time Series" k) ks = Some key /\
     get_field dt key = Ret series /\
     AlphaVantage.entries_of series = Ret es /\
     mapM (AlphaVantage.toCandle parseFloat) es = Ret candles /\
     result = rev candles /\
     (sorted_descending candles = true -> sorted_ascending result = true)).
Proof.
  split; intros Hmiss Hcall.
  - destruct (Cache.get c t1 (pair ++ "-" ++ interval)) as [cached c1] eqn:Hg.
    simpl in Hmiss; subst cached.
    rewrite (td_fetch_miss _ _ _ _ _ _ _ _ _ _ Hg) in Hcall.
    destruct (TwelveData.parse parseFloat ToString up) as [m|r] eqn:Hp.
    + destruct (@rethrow_throws (list Candle) m) as [m' Hm'].
      rewrite Hm' in Hcall. discriminate.
    + injection Hcall as -> _ _.
      destruct (td_parse_ok _ _ _ _ Hp)
        as (st & stt & dt & items & candles & -> & _ & Hv & Hm & ->).
      exists st, stt, dt, items, candles.
      repeat split; try assumption. apply descending_rev.
  - destruct (Cache.get c t1 url) as [cached c1] eqn:Hg.
    simpl in Hmiss; subst cached.
    rewrite (av_fetch_miss _ _ _ _ _ _ _ _ Hg) in Hcall.
    destruct (AlphaVantage.parse parseFloat ToString up) as [m|r] eqn:Hp.
    + destruct (@rethrow_throws (list Candle) m) as [m' Hm'].
      rewrite Hm' in Hcall. discriminate.
    + injection Hcall as -> _ _.
      destruct (av_parse_ok _ _ _ _ Hp)
        as (st & stt & dt & ks & key & series & es & candles
            & -> & Hks & Hkey & Hser & Hes & Hm & ->).
      exists st, stt, dt, ks, key, series, es, candles.
      repeat split; try assumption. apply descending_rev.
Qed.

Lemma C2_reverse_of_upstream_witness :
  exists st stt dt items candles,
    answer td_newest_first = Responded true st stt (Ret dt) /\
    get_field dt "values" = Ret (Some (JArr items)) /\
    mapM (TwelveData.toCandle parseFloat_decimal) items = Ret candles /\
    [td_candle "2024-01-01"; td_candle "2024-01-02"] = rev candles /\
    (sorted_descending candles = true ->
     sorted_ascending [td_candle "2024-01-01"; td_candle "2024-01-02"] = true).
Proof.
  apply (proj1 (C2_reverse_of_upstream parseFloat_decimal ToString_text
                  1000 1000 (answer td_newest_first) EURUSD_daily_url
                  "EURUSD" "daily" (Cache.new 300000)
                  (Cache.set (Cache.new 300000) 1000 "EURUSD-daily"
                     [td_candle "2024-01-01"; td_candle "2024-01-02"])
                  [td_candle "2024-01-01"; td_candle "2024-01-02"]
                  [EvCacheGet "EURUSD-daily"; EvFetch EURUSD_daily_url;
                   EvCacheSet "EURUSD-daily"])).
  - reflexivity.
  - vm_compute. reflexivity.
Defined.

(** C4 fails as stated, on a key that is already stored and unexpired and on
    a first call that fails. With the key stored at time 1000 and a TTL of
    300000, the calls at times 2000 and 3000 are both answered from the
    cache: no network call. With an empty cache and a provider that cannot
    be reached, nothing is stored and each of the two calls issues its own
    request: two network calls. *)
Lemma C4_zero_or_two_network_calls :
  (let stored := Cache.set (Cache.new 300000) 1000 "EURUSD-daily"
                   [td_candle "2024-01-01"; td_candle "2024-01-02"] in
   TwelveData.fetchCandles parseFloat_decimal ToString_text 2000 2000
     (answer td_newest_first) EURUSD_daily_url "EURUSD" "daily" stored
     = (Ret [td_candle "2024-01-01"; td_candle "2024-01-02"], stored,
        [EvCacheGet "EURUSD-daily"]) /\
   TwelveData.fetchCandles parseFloat_decimal ToString_text 3000 3000
     (answer td_newest_first) EURUSD_daily_url "EURUSD" "daily" stored
     = (Ret [td_candle "2024-01-01"; td_candle "2024-01-02"], stored,
        [EvCacheGet "EURUSD-daily"]) /\
   network_calls ([EvCacheGet "EURUSD-daily"] ++ [EvCacheGet "EURUSD-daily"])
     = 0%nat) /\
  (TwelveData.fetchCandles parseFloat_decimal ToString_text 2000 2000
     (Rejected "network timeout") EURUSD_daily_url "EURUSD" "daily"
     (Cache.new 300000)
     = (Throw "network timeout", Cache.new 300000,
        [EvCacheGet "EURUSD-daily"; EvFetch EURUSD_daily_url]) /\
   TwelveData.fetchCandles parseFloat_decimal ToString_text 3000 3000
     (Rejected "network timeout") EURUSD_daily_url "EURUSD" "daily"
     (Cache.new 300000)
     = (Throw "network timeout", Cache.new 300000,
        [EvCacheGet "EURUSD-daily"; EvFetch EURUSD_daily_url]) /\
   network_calls
     ([EvCacheGet "EURUSD-daily"; EvFetch EURUSD_daily_url] ++
      [EvCacheGet "EURUSD-daily"; EvFetch EURUSD_daily_url]) = 2%nat).
Proof.
  split; (split; [|split]); vm_compute; reflexivity.
Qed.

(** C4, as the code has it. When a call of [fetchCandles] has issued the
    upstream request and stored its result (the key was not stored, or had
    expired, and the provider's answer was a success), a second call for the
    same key whose read happens within the TTL of that store returns the
    same sequence from the cache, leaves the cache as it is and issues no
    request, whatever the provider would have answered: the two calls make
    exactly one network call. *)
Theorem C4_one_network_call (parseFloat : jsval -> Exn jsnum)
    (ToString : jsval -> Exn string) (t1 s1 t2 s2 : Z) (up1 up2 : FetchOutcome)
    (url pair interval : string) (c c1 : Cache.t) (result : list Candle)
    (evs1 : list Event) :
  (t2 - s1 <= Cache.ttl c)%Z ->
  network_calls evs1 = 1%nat ->
  (TwelveData.fetchCandles parseFloat ToString t1 s1 up1 url pair interval c
     = (Ret result, c1, evs1) ->
   exists evs2,
     TwelveData.fetchCandles parseFloat ToString t2 s2 up2 url pair interval c1
       = (Ret result, c1, evs2) /\
     network_calls evs2 = 0%nat /\
     network_calls (evs1 ++ evs2) = 1%nat) /\
  (AlphaVantage.fetchCandles parseFloat ToString t1 s1 up1 url c
     = (Ret result, c1, evs1) ->
   exists evs2,
     AlphaVantage.fetchCandles parseFloat ToString t2 s2 up2 url c1
       = (Ret result, c1, evs2) /\
     network_calls evs2 = 0%nat /\
     network_calls (evs1 ++ evs2) = 1%nat).
Proof.
  intros Hage Hnet. split; intros Hcall.
  - destruct (Cache.get c t1 (pair ++ "-" ++ interval)) as [[v|] c0] eqn:Hg.
    { rewrite (td_fetch_hit _ _ _ _ _ _ _ _ _ _ _ Hg) in Hcall.
      injection Hcall as _ _ <-. discriminate Hnet. }
    rewrite (td_fetch_miss _ _ _ _ _ _ _ _ _ _ Hg) in Hcall.
    destruct (TwelveData.parse parseFloat ToString up1) as [m|r].
    { destruct (@rethrow_throws (list Candle) m) as [m' Hm'].
      rewrite Hm' in Hcall. discriminate. }
    injection Hcall as -> <- <-.
    apply get_miss in Hg as (_ & _ & Httl).
    exists [EvCacheGet (pair ++ "-" ++ interval)].
    split; [|split; reflexivity].
    eapply td_fetch_hit.
    rewrite (get_fresh _ _ t2 _ (set_lookup c0 _ result s1)); [reflexivity|].
    simpl. lia.
  - destruct (Cache.get c t1 url) as [[v|] c0] eqn:Hg.
    { rewrite (av_fetch_hit _ _ _ _ _ _ _ _ _ Hg) in Hcall.
      injection Hcall as _ _ <-. discriminate Hnet. }
    rewrite (av_fetch_miss _ _ _ _ _ _ _ _ Hg) in Hcall.
    destruct (AlphaVantage.parse parseFloat ToString up1) as [m|r].
    { destruct (@rethrow_throws (list Candle) m) as [m' Hm'].
      rewrite Hm' in Hcall. discriminate. }
    injection Hcall as -> <- <-.
    apply get_miss in Hg as (_ & _ & Httl).
    exists [EvCacheGet url].
    split; [|split; reflexivity].
    eapply av_fetch_hit.
    rewrite (get_fresh _ _ t2 _ (set_lookup c0 _ result s1)); [reflexivity|].
    simpl. lia.
Qed.

Lemma C4_one_network_call_witness :
  exists evs2,
    TwelveData.fetchCandles parseFloat_decimal ToString_text 200000 200000
      (Rejected "network timeout") EURUSD_daily_url "EURUSD" "daily"
      (Cache.set (Cache.new 300000) 1200 "EURUSD-daily"
         [td_candle "2024-01-01"; td_candle "2024-01-02"])
      = (Ret [td_candle "2024-01-01"; td_candle "2024-01-02"],
         Cache.set (Cache.new 300000) 1200 "EURUSD-daily"
           [td_candle "2024-01-01"; td_candle "2024-01-02"],
         evs2) /\
    network_calls evs2 = 0%nat /\
    network_calls
      ([EvCacheGet "EURUSD-daily"; EvFetch EURUSD_daily_url;
        EvCacheSet "EURUSD-daily"] ++ evs2) = 1%nat.
Proof.
  apply (proj1 (C4_one_network_call parseFloat_decimal ToString_text
                  1000 1200 200000 200000 (answer td_newest_first)
                  (Rejected "network timeout") EURUSD_daily_url
                  "EURUSD" "daily" (Cache.new 300000)
                  (Cache.set (Cache.new 300000) 1200 "EURUSD-daily"
                     [td_candle "2024-01-01"; td_candle "2024-01-02"])
                  [td_candle "2024-01-01"; td_candle "2024-01-02"]
                  [EvCacheGet "EURUSD-daily"; EvFetch EURUSD_daily_url;
                   EvCacheSet "EURUSD-daily"]
                  ltac:(simpl; lia) ltac:(reflexivity))).
  vm_compute. reflexivity.
Defined.

(** C9. When [fetchCandles] ends in an error, whatever its classification,
    [cache.set] was not reached: the cache is the one left by the initial
    [cache.get] (the original one, or the original one without the expired
    entry of this key), every entry it holds was there before the call with
    the same data and timestamp, and it holds no entry for the key. *)
Theorem C9_error_stores_nothing (parseFloat : jsval -> Exn jsnum)
    (ToString : jsval -> Exn string) (t1 t2 : Z) (up : FetchOutcome)
    (url pair interval : string) (c c' : Cache.t) (m : string)
    (evs : list Event) :
  (TwelveData.fetchCandles parseFloat ToString t1 t2 up url pair interval c
     = (Throw m, c', evs) ->
   c' = snd (Cache.get c t1 (pair ++ "-" ++ interval)) /\
   Cache.cache c' ⊆ Cache.cache c /\
   Cache.cache c' !! (pair ++ "-" ++ interval) = None /\
   List.filter is_cache_set evs = []) /\
  (AlphaVantage.fetchCandles parseFloat ToString t1 t2 up url c
     = (Throw m, c', evs) ->
   c' = snd (Cache.get c t1 url) /\
   Cache.cache c' ⊆ Cache.cache c /\
   Cache.cache c' !! url = None /\
   List.filter is_cache_set evs = []).
Proof.
  split; intros Hcall.
  - destruct (Cache.get c t1 (pair ++ "-" ++ interval)) as [[v|] c0] eqn:Hg.
    { rewrite (td_fetch_hit _ _ _ _ _ _ _ _ _ _ _ Hg) in Hcall. discriminate. }
    rewrite (td_fetch_miss _ _ _ _ _ _ _ _ _ _ Hg) in Hcall.
    destruct (TwelveData.parse parseFloat ToString up); [|discriminate].
    injection Hcall as _ <- <-.
    apply get_miss in Hg as (Hnone & Hsub & _). auto.
  - destruct (Cache.get c t1 url) as [[v|] c0] eqn:Hg.
    { rewrite (av_fetch_hit _ _ _ _ _ _ _ _ _ Hg) in Hcall. discriminate. }
    rewrite (av_fetch_miss _ _ _ _ _ _ _ _ Hg) in Hcall.
    destruct (AlphaVantage.parse parseFloat ToString up); [|discriminate].
    injection Hcall as _ <- <-.
    apply get_miss in Hg as (Hnone & Hsub & _). auto.
Qed.

Lemma C9_error_stores_nothing_witness :
  Cache.new 300000 = snd (Cache.get (Cache.new 300000) 1000 "EURUSD-daily") /\
  Cache.cache (Cache.new 300000) ⊆ Cache.cache (Cache.new 300000) /\
  Cache.cache (Cache.new 300000) !! "EURUSD-daily" = None /\
  List.filter is_cache_set [EvCacheGet "EURUSD-daily"; EvFetch EURUSD_daily_url]
    = [].
Proof.
  apply (proj1 (C9_error_stores_nothing parseFloat_decimal ToString_text
                  1000 1000 (Rejected "network timeout") EURUSD_daily_url
                  "EURUSD" "daily" (Cache.new 300000) (Cache.new 300000)
                  "network timeout"
                  [EvCacheGet "EURUSD-daily"; EvFetch EURUSD_daily_url])).
  vm_compute. reflexivity.
Defined.

(** ** The request handlers *)

(** C6. On each of the three candle endpoints, of either variant and in
    either mode, a request whose [pair] is absent or the empty string is
    answered with status 400 and error code [MISSING_PAIR]; the cache is
    left as it is and no effect is performed: no demo generation, no cache
    access, no network call. *)
Theorem C6_missing_pair (API_KEY : option string) (DEMO_MODE : bool)
    (parseFloat : jsval -> Exn jsnum) (ToString : jsval -> Exn string)
    (w : Oracle) (pair : option string) (c : Cache.t) :
  pair = None \/ pair = Some "" ->
  TwelveData.api_daily API_KEY DEMO_MODE parseFloat ToString w pair c
    = (MISSING_PAIR, c, []) /\
  TwelveData.api_h1 API_KEY DEMO_MODE parseFloat ToString w pair c
    = (MISSING_PAIR, c, []) /\
  TwelveData.api_m15 API_KEY DEMO_MODE parseFloat ToString w pair c
    = (MISSING_PAIR, c, []) /\
  AlphaVantage.api_daily API_KEY DEMO_MODE parseFloat ToString w pair c
    = (MISSING_PAIR, c, []) /\
  AlphaVantage.api_h1 API_KEY DEMO_MODE parseFloat ToString w pair c
    = (MISSING_PAIR, c, []) /\
  AlphaVantage.api_m15 API_KEY DEMO_MODE parseFloat ToString w pair c
    = (MISSING_PAIR, c, []) /\
  status MISSING_PAIR = 400%nat /\
  body MISSING_PAIR = Failure "MISSING_PAIR" "Pair parameter is required".
Proof.
  intros [-> | ->]; repeat split; reflexivity.
Qed.

Lemma C6_missing_pair_witness :
  TwelveData.api_daily (Some "KEY") false parseFloat_decimal ToString_text
    (oracle_of 1000 (answer td_newest_first)) (Some "") (Cache.new 300000)
    = (MISSING_PAIR, Cache.new 300000, []).
Proof.
  apply (C6_missing_pair (Some "KEY") false parseFloat_decimal ToString_text
           (oracle_of 1000 (answer td_newest_first)) (Some "")
           (Cache.new 300000)).
  right. reflexivity.
Defined.

Lemma present_not_missing (p : string) : p <> "" -> missing (Some p) = false.
Proof. intros Hp. simpl. now apply String.eqb_neq. Qed.

Lemma append_assoc (a b d : string) : (a ++ b) ++ d = a ++ b ++ d.
Proof.
  induction a as [|x a IH]; [reflexivity|].
  change (String x ((a ++ b) ++ d) = String x (a ++ b ++ d)). now f_equal.
Qed.


Lemma td_route_live API_KEY parseFloat ToString interval volatility w p c :
  p <> "" ->
  TwelveData.candles_route API_KEY false parseFloat ToString interval
    volatility w (Some p) c =
  let '(r, c', evs) :=
    TwelveData.fetchCandles parseFloat ToString (t_get w) (t_set w)
      (upstream w) (TwelveData.twelveDataUrl API_KEY p interval) p interval c in
  match r with
  | Ret candles => (json_ok (Candles candles), c', evs)
  | Throw message =>
      if String.eqb message "API_LIMIT"
      then (TwelveData.API_LIMIT_REACHED, c', evs)
      else (SERVER_ERROR message, c', evs)
  end.
Proof.
  intros Hp. unfold TwelveData.candles_route.
  rewrite (present_not_missing p Hp). reflexivity.
Qed.

Lemma av_route_live API_KEY parseFloat ToString interval volatility w p c :
  p <> "" ->
  AlphaVantage.candles_route API_KEY false parseFloat ToString interval
    volatility w (Some p) c =
  let '(r, c', evs) :=
    AlphaVantage.fetchCandles parseFloat ToString (t_get w) (t_set w)
      (upstream w) (AlphaVantage.alphaUrl API_KEY p interval) c in
  match r with
  | Ret candles => (json_ok (Candles candles), c', evs)
  | Throw message =>
      if String.eqb message "API_LIMIT"
      then (AlphaVantage.API_LIMIT_REACHED, c', evs)
      else (SERVER_ERROR message, c', evs)
  end.
Proof.
  intros Hp. unfold AlphaVantage.candles_route.
  rewrite (present_not_missing p Hp). reflexivity.
Qed.



(** ** Classification of a rate-limited answer *)

Section RateLimit.

Variable API_KEY : option string.
Variable parseFloat : jsval -> Exn jsnum.
Variable ToString : jsval -> Exn string.

#[local] Arguments get_field : simpl never.
#[local] Arguments truthy : simpl never.
#[local] Arguments strict_eq_str : simpl never.
#[local] Arguments strict_eq_num : simpl never.

(** AlphaVantage: a truthy [Note] is tested first, so the answer is the 429
    whatever else the body carries, an [Error Message] included. *)
Lemma av_note_is_rate_limit interval volatility w p c st stt dt note :
  p <> "" ->
  fst (Cache.get c (t_get w) (AlphaVantage.alphaUrl API_KEY p interval)) = None ->
  upstream w = Responded true st stt (Ret dt) ->
  get_field dt "Note" = Ret note -> truthy note = true ->
  fst (fst (AlphaVantage.candles_route API_KEY false parseFloat ToString
              interval volatility w (Some p) c))
    = AlphaVantage.API_LIMIT_REACHED.
Proof.
  intros Hp Hmiss Hup Hnote Htruthy. rewrite (av_route_live _ _ _ _ _ _ _ _ Hp).
  destruct (Cache.get c _ _) as [cached c1] eqn:Hg. simpl in Hmiss; subst cached.
  rewrite (av_fetch_miss _ _ _ _ _ _ _ _ Hg), Hup. simpl.
  rewrite Hnote. simpl. rewrite Htruthy. reflexivity.
Qed.

(** Twelve Data: [code === 429] is the rate limit only when the body does
    not carry [status: "error"] as well. *)
Lemma td_code_429_without_error_status interval volatility w p c st stt dt s code :
  p <> "" ->
  fst (Cache.get c (t_get w) (p ++ "-" ++ interval)) = None ->
  upstream w = Responded true st stt (Ret dt) ->
  get_field dt "status" = Ret s -> strict_eq_str s "error" = false ->
  get_field dt "code" = Ret code -> strict_eq_num code 429 = true ->
  fst (fst (TwelveData.candles_route API_KEY false parseFloat ToString
              interval volatility w (Some p) c))
    = TwelveData.API_LIMIT_REACHED.
Proof.
  intros Hp Hmiss Hup Hs Herr Hc H429. rewrite (td_route_live _ _ _ _ _ _ _ _ Hp).
  destruct (Cache.get c _ _) as [cached c1] eqn:Hg. simpl in Hmiss; subst cached.
  rewrite (td_fetch_miss _ _ _ _ _ _ _ _ _ _ Hg), Hup. simpl.
  rewrite Hs. simpl. rewrite Herr, Hc. simpl. rewrite H429. reflexivity.
Qed.

(** Twelve Data: [status === 'error'] is tested before the code, so a body
    with [status: "error"] is the generic 500, its [code] being 429 or not
    ([text] is the message as the template literal renders it). *)
Lemma td_error_status_first interval volatility w p c st stt dt s message text :
  p <> "" ->
  fst (Cache.get c (t_get w) (p ++ "-" ++ interval)) = None ->
  upstream w = Responded true st stt (Ret dt) ->
  get_field dt "status" = Ret s -> strict_eq_str s "error" = true ->
  get_field dt "message" = Ret message ->
  ToString message = Ret text ->
  fst (fst (TwelveData.candles_route API_KEY false parseFloat ToString
              interval volatility w (Some p) c))
    = SERVER_ERROR ("API_ERROR: " ++ text).
Proof.
  intros Hp Hmiss Hup Hs Herr Hm Ht. rewrite (td_route_live _ _ _ _ _ _ _ _ Hp).
  destruct (Cache.get c _ _) as [cached c1] eqn:Hg. simpl in Hmiss; subst cached.
  rewrite (td_fetch_miss _ _ _ _ _ _ _ _ _ _ Hg), Hup. simpl.
  rewrite Hs. simpl. rewrite Herr, Hm. simpl. rewrite Ht. reflexivity.
Qed.

End RateLimit.

(** C1 does not hold on the Twelve Data variant. The body Twelve Data sends
    when the quota is used up carries [code: 429] together with
    [status: "error"]; [fetchCandles] tests the status first, throws
    [API_ERROR: ...], and the handler answers 500 [SERVER_ERROR]. *)
Theorem C1_rate_limit_answered_500 :
  get_field td_rate_limited "code" = Ret (Some (JNum (inject_Z 429))) /\
  TwelveData.api_daily (Some "KEY") false parseFloat_decimal ToString_text
    (oracle_of 1000 (answer td_rate_limited)) (Some "EURUSD")
    (Cache.new 300000)
  = ({| status := 500;
        body := Failure "SERVER_ERROR"
          "API_ERROR: You have run out of API credits for the current minute." |},
     Cache.new 300000,
     [EvCacheGet "EURUSD-daily"; EvFetch EURUSD_daily_url]).
Proof. split; vm_compute; reflexivity. Qed.

(** ** More on the cache *)

(** X1. [set] on a key that is already stored replaces the entry, timestamp
    included: the last write wins and the size does not change; on a key
    that is not stored the size grows by one. *)
Theorem set_last_write_wins (c : Cache.t) (k : string) (v1 v2 : list Candle)
    (s1 s2 : Z) :
  Cache.set (Cache.set c s1 k v1) s2 k v2 = Cache.set c s2 k v2 /\
  Cache.size (Cache.set (Cache.set c s1 k v1) s2 k v2)
    = Cache.size (Cache.set c s1 k v1) /\
  Cache.size (Cache.set c s1 k v1)
    = match Cache.cache c !! k with
      | Some _ => Cache.size c
      | None => S (Cache.size c)
      end.
Proof.
  unfold Cache.set, Cache.size; simpl. split; [|split].
  - now rewrite insert_insert_eq.
  - rewrite (map_size_insert k _ (<[k:=_]> _)), lookup_insert_eq. reflexivity.
  - rewrite map_size_insert. destruct (Cache.cache c !! k); reflexivity.
Qed.

Lemma get_fst_ext (c c' : Cache.t) (k : string) (t : Z) :
  Cache.cache c !! k = Cache.cache c' !! k -> Cache.ttl c = Cache.ttl c' ->
  fst (Cache.get c t k) = fst (Cache.get c' t k).
Proof.
  intros Hk Httl. unfold Cache.get. rewrite Hk, Httl.
  destruct (Cache.cache c' !! k) as [item|]; [|reflexivity].
  destruct (_ >? _)%Z; reflexivity.
Qed.

(** X2. [set] and [get] on a key leave every other key as it is: the entry
    stored under another key, and what a read of it returns, are the same
    before and after. *)
Theorem other_keys_untouched (c : Cache.t) (k k' : string)
    (v : list Candle) (s t t' : Z) :
  k <> k' ->
  Cache.cache (Cache.set c s k v) !! k' = Cache.cache c !! k' /\
  Cache.cache (snd (Cache.get c t k)) !! k' = Cache.cache c !! k' /\
  fst (Cache.get (Cache.set c s k v) t' k') = fst (Cache.get c t' k') /\
  fst (Cache.get (snd (Cache.get c t k)) t' k') = fst (Cache.get c t' k').
Proof.
  intros Hne.
  assert (H1 : Cache.cache (Cache.set c s k v) !! k' = Cache.cache c !! k')
    by (unfold Cache.set; simpl; now apply lookup_insert_ne).
  assert (H2 : Cache.cache (snd (Cache.get c t k)) !! k' = Cache.cache c !! k').
  { unfold Cache.get. destruct (Cache.cache c !! k) as [item|]; [|reflexivity].
    destruct (_ >? _)%Z; simpl; [now apply lookup_delete_ne | reflexivity]. }
  assert (Httl : Cache.ttl (snd (Cache.get c t k)) = Cache.ttl c).
  { unfold Cache.get. destruct (Cache.cache c !! k) as [item|]; [|reflexivity].
    destruct (_ >? _)%Z; reflexivity. }
  repeat split; try assumption.
  - now apply get_fst_ext.
  - now apply get_fst_ext.
Qed.

(** X3. A read never grows the cache: the size after it is the size before,
    less one exactly when the key has an entry that is stale at that time.
    Stale entries count in [size()] until they are read. *)
Theorem get_size (c : Cache.t) (k : string) (t : Z) :
  Cache.size (snd (Cache.get c t k))
    = match Cache.cache c !! k with
      | Some item =>
          if (t - timestamp item >? Cache.ttl c)%Z
          then pred (Cache.size c) else Cache.size c
      | None => Cache.size c
      end /\
  (Cache.size (snd (Cache.get c t k)) <= Cache.size c)%nat.
Proof.
  unfold Cache.get, Cache.size.
  destruct (Cache.cache c !! k) as [item|] eqn:Hk.
  - destruct (_ >? _)%Z eqn:Hage; simpl.
    + rewrite map_size_delete, Hk.
      assert (size (Cache.cache c) <> 0)%nat.
      { intros H0. apply map_size_empty_inv in H0. rewrite H0 in Hk.
        now rewrite lookup_empty in Hk. }
      split; [reflexivity | lia].
    + split; [reflexivity | lia].
  - simpl. split; [reflexivity | lia].
Qed.

(** X4. Reading a key twice at the same time gives the second time what the
    first read gave and leaves the cache of the first read. *)
Theorem get_twice (c : Cache.t) (k : string) (t : Z) :
  Cache.get (snd (Cache.get c t k)) t k = Cache.get c t k.
Proof.
  unfold Cache.get at 2 3. destruct (Cache.cache c !! k) as [item|] eqn:Hk.
  - destruct (_ >? _)%Z eqn:Hage; simpl.
    + unfold Cache.get; simpl. now rewrite lookup_delete_eq.
    + unfold Cache.get. now rewrite Hk, Hage.
  - simpl. unfold Cache.get. now rewrite Hk.
Qed.

Lemma other_keys_untouched_witness :
  Cache.cache (Cache.set (Cache.new 300000) 1000 "EURUSD-daily" []) !! "EURUSD-60min"
    = Cache.cache (Cache.new 300000) !! "EURUSD-60min".
Proof.
  apply (other_keys_untouched (Cache.new 300000) "EURUSD-daily" "EURUSD-60min"
           [] 1000 2000 2000).
  discriminate.
Defined.

(** ** More on the upstream client *)

Section MoreFetchFacts.

Variable parseFloat : jsval -> Exn jsnum.
Variable ToString : jsval -> Exn string.

#[local] Arguments get_field : simpl never.
#[local] Arguments keys : simpl never.
#[local] Arguments truthy : simpl never.
#[local] Arguments isArray : simpl never.
#[local] Arguments strict_eq_str : simpl never.
#[local] Arguments strict_eq_num : simpl never.

Lemma get_miss_insert (c c1 : Cache.t) (k : string) (t : Z) (e : CacheEntry) :
  Cache.get c t k = (None, c1) ->
  <[k := e]> (Cache.cache c1) = <[k := e]> (Cache.cache c) /\
  Cache.ttl c1 = Cache.ttl c.
Proof.
  unfold Cache.get. destruct (Cache.cache c !! k) as [item|].
  - destruct (_ >? _)%Z; [|discriminate]. intros [= <-]; simpl.
    split; [apply insert_delete_eq | reflexivity].
  - intros [= <-]. auto.
Qed.

End MoreFetchFacts.

(** X5. A call of [fetchCandles] that reaches the provider and succeeds
    changes the cache in one place: the entry of its key becomes the result
    with the time of the store; every other entry and the TTL are as
    before. *)
Theorem fetch_success_writes_one_entry (parseFloat : jsval -> Exn jsnum)
    (ToString : jsval -> Exn string) (t1 t2 : Z) (up : FetchOutcome)
    (url pair interval : string) (c c' : Cache.t) (result : list Candle)
    (evs : list Event) :
  network_calls evs = 1%nat ->
  (TwelveData.fetchCandles parseFloat ToString t1 t2 up url pair interval c
     = (Ret result, c', evs) ->
   Cache.cache c'
     = <[pair ++ "-" ++ interval := {| data := result; timestamp := t2 |}]>
         (Cache.cache c) /\
   Cache.ttl c' = Cache.ttl c) /\
  (AlphaVantage.fetchCandles parseFloat ToString t1 t2 up url c
     = (Ret result, c', evs) ->
   Cache.cache c'
     = <[url := {| data := result; timestamp := t2 |}]> (Cache.cache c) /\
   Cache.ttl c' = Cache.ttl c).
Proof.
  intros Hnet. split; intros Hcall.
  - destruct (Cache.get c t1 (pair ++ "-" ++ interval)) as [[v|] c0] eqn:Hg.
    { rewrite (td_fetch_hit _ _ _ _ _ _ _ _ _ _ _ Hg) in Hcall.
      injection Hcall as _ _ <-. discriminate Hnet. }
    rewrite (td_fetch_miss _ _ _ _ _ _ _ _ _ _ Hg) in Hcall.
    destruct (TwelveData.parse parseFloat ToString up) as [m|r].
    { destruct (@rethrow_throws (list Candle) m) as [m' Hm'].
      rewrite Hm' in Hcall. discriminate. }
    injection Hcall as -> <- _. simpl.
    now apply get_miss_insert with (t := t1).
  - destruct (Cache.get c t1 url) as [[v|] c0] eqn:Hg.
    { rewrite (av_fetch_hit _ _ _ _ _ _ _ _ _ Hg) in Hcall.
      injection Hcall as _ _ <-. discriminate Hnet. }
    rewrite (av_fetch_miss _ _ _ _ _ _ _ _ Hg) in Hcall.
    destruct (AlphaVantage.parse parseFloat ToString up) as [m|r].
    { destruct (@rethrow_throws (list Candle) m) as [m' Hm'].
      rewrite Hm' in Hcall. discriminate. }
    injection Hcall as -> <- _. simpl.
    now apply get_miss_insert with (t := t1).
Qed.

Lemma fetch_success_writes_one_entry_witness :
  Cache.cache
    (Cache.set (Cache.new 300000) 1200 "EURUSD-daily"
       [td_candle "2024-01-01"; td_candle "2024-01-02"])
  = <["EURUSD" ++ "-" ++ "daily" :=
        {| data := [td_candle "2024-01-01"; td_candle "2024-01-02"];
           timestamp := 1200 |}]> (Cache.cache (Cache.new 300000)) /\
  Cache.ttl
    (Cache.set (Cache.new 300000) 1200 "EURUSD-daily"
       [td_candle "2024-01-01"; td_candle "2024-01-02"])
  = Cache.ttl (Cache.new 300000).
Proof.
  apply (proj1 (fetch_success_writes_one_entry parseFloat_decimal ToString_text
                  1000 1200 (answer td_newest_first) EURUSD_daily_url
                  "EURUSD" "daily" (Cache.new 300000)
                  (Cache.set (Cache.new 300000) 1200 "EURUSD-daily"
                     [td_candle "2024-01-01"; td_candle "2024-01-02"])
                  [td_candle "2024-01-01"; td_candle "2024-01-02"]
                  [EvCacheGet "EURUSD-daily"; EvFetch EURUSD_daily_url;
                   EvCacheSet "EURUSD-daily"]
                  ltac:(reflexivity))).
  vm_compute. reflexivity.
Defined.

(** X6. With a negative TTL nothing is served from the cache: when no entry
    is stamped later than the time of the read, every call of [fetchCandles]
    issues the upstream request. *)
Theorem negative_ttl_always_fetches (parseFloat : jsval -> Exn jsnum)
    (ToString : jsval -> Exn string) (t1 t2 : Z) (up : FetchOutcome)
    (url pair interval : string) (c : Cache.t) :
  (Cache.ttl c < 0)%Z ->
  (forall k e, Cache.cache c !! k = Some e -> (timestamp e <= t1)%Z) ->
  network_calls
    (snd (TwelveData.fetchCandles parseFloat ToString t1 t2 up url pair
            interval c)) = 1%nat /\
  network_calls
    (snd (AlphaVantage.fetchCandles parseFloat ToString t1 t2 up url c)) = 1%nat.
Proof.
  intros Httl Hpast.
  assert (Hmiss : forall k, exists c1, Cache.get c t1 k = (None, c1)).
  { intros k. unfold Cache.get. destruct (Cache.cache c !! k) as [item|] eqn:Hk.
    - specialize (Hpast _ _ Hk).
      destruct (Z.gtb_spec (t1 - timestamp item) (Cache.ttl c)); [eauto | lia].
    - eauto. }
  split.
  - destruct (Hmiss (pair ++ "-" ++ interval)) as [c1 Hg].
    rewrite (td_fetch_miss _ _ _ _ _ _ _ _ _ _ Hg).
    destruct (TwelveData.parse _ _ _); reflexivity.
  - destruct (Hmiss url) as [c1 Hg].
    rewrite (av_fetch_miss _ _ _ _ _ _ _ _ Hg).
    destruct (AlphaVantage.parse _ _ _); reflexivity.
Qed.

Lemma negative_ttl_always_fetches_witness :
  network_calls
    (snd (TwelveData.fetchCandles parseFloat_decimal ToString_text 2000 2000
            (answer td_newest_first) EURUSD_daily_url "EURUSD" "daily"
            (Cache.set (Cache.new (-1)) 1000 "EURUSD-daily" []))) = 1%nat.
Proof.
  apply (negative_ttl_always_fetches parseFloat_decimal ToString_text 2000 2000
           (answer td_newest_first) EURUSD_daily_url "EURUSD" "daily"
           (Cache.set (Cache.new (-1)) 1000 "EURUSD-daily" [])).
  - simpl. lia.
  - intros k e Hk. simpl in Hk.
    apply lookup_insert_Some in Hk as [[_ <-] | [_ Hk]]; [simpl; lia|].
    rewrite lookup_empty in Hk. discriminate.
Defined.

(** ** Cache keys and URLs *)

Section StringFacts.

Lemma append_cons (a : ascii) (p s : string) :
  String a p ++ s = String a (p ++ s).
Proof. reflexivity. Qed.

Lemma length_append (p s : string) :
  String.length (p ++ s) = (String.length p + String.length s)%nat.
Proof.
  induction p as [|a p IH]; [reflexivity|].
  rewrite append_cons. simpl. now rewrite IH.
Qed.

(** Two strings that end in suffixes of the same length are equal only if
    the suffixes and what precedes them are. *)
Lemma append_inj_suffix (p p' s s' : string) :
  String.length s = String.length s' ->
  p ++ s = p' ++ s' -> p = p' /\ s = s'.
Proof.
  intros Hlen. revert p'. induction p as [|a p IH]; intros [|a' p'] Heq.
  - auto.
  - change ("" ++ s) with s in Heq. subst s.
    rewrite append_cons in Hlen. simpl in Hlen. rewrite length_append in Hlen. lia.
  - change ("" ++ s') with s' in Heq. subst s'.
    rewrite append_cons in Hlen. simpl in Hlen. rewrite length_append in Hlen. lia.
  - rewrite !append_cons in Heq. injection Heq as -> Heq.
    destruct (IH _ Heq) as [-> ->]. auto.
Qed.

Lemma substring_0_0 (s : string) : substring 0 0 s = "".
Proof. destruct s; reflexivity. Qed.

Lemma slice_0_3_append (p e : string) :
  (3 <= String.length p)%nat -> slice 0 3 (p ++ e) = slice 0 3 p.
Proof.
  destruct p as [|a [|b [|d p]]]; simpl; try lia. intros _.
  rewrite !append_cons. unfold slice. simpl. now rewrite !substring_0_0.
Qed.

Lemma slice_3_6_append (p e : string) :
  (6 <= String.length p)%nat -> slice 3 6 (p ++ e) = slice 3 6 p.
Proof.
  destruct p as [|a [|b [|d [|x [|y [|z p]]]]]]; simpl; try lia.
  intros _. rewrite !append_cons. unfold slice. simpl.
  now rewrite !substring_0_0.
Qed.

End StringFacts.

(** X7. Twelve Data: the cache key [pair-interval] tells the requests of the
    handlers apart; two requests share a key only when they have the same
    pair and the same interval. *)
Theorem td_cache_key_injective (p p' i i' : string) :
  handler_interval i -> handler_interval i' ->
  p ++ "-" ++ i = p' ++ "-" ++ i' -> p = p' /\ i = i'.
Proof.
  intros Hi Hi' Heq.
  assert (Hlen : String.length ("-" ++ i) = String.length ("-" ++ i')).
  { destruct Hi as [-> | [-> | ->]], Hi' as [-> | [-> | ->]]; reflexivity. }
  destruct (append_inj_suffix _ _ _ _ Hlen Heq) as [-> Hs].
  split; [reflexivity|]. now injection Hs.
Qed.

Lemma td_cache_key_injective_witness :
  "EURUSD" = "EURUSD" /\ "daily" = "daily".
Proof.
  apply (td_cache_key_injective "EURUSD" "EURUSD" "daily" "daily").
  - left. reflexivity.
  - left. reflexivity.
  - reflexivity.
Defined.

Lemma append_4 (a b d e s : string) :
  a ++ b ++ d ++ e ++ s = (((a ++ b) ++ d) ++ e) ++ s.
Proof. now rewrite !append_assoc. Qed.

(** X8. AlphaVantage: the URL, which is the cache key, tells the three routes
    apart; whatever the pairs, requests of two different routes never share
    a cache entry. *)
Theorem av_routes_have_distinct_keys (API_KEY : option string)
    (p p' i i' : string) :
  handler_interval i -> handler_interval i' ->
  AlphaVantage.alphaUrl API_KEY p i = AlphaVantage.alphaUrl API_KEY p' i' ->
  i = i'.
Proof.
  intros Hi Hi' Heq. unfold AlphaVantage.alphaUrl in Heq.
  destruct Hi as [-> | [-> | ->]], Hi' as [-> | [-> | ->]];
    try reflexivity; exfalso; simpl in Heq.
  all: try (rewrite !append_cons in Heq; discriminate Heq).
  all: rewrite (append_4 _ (slice 0 3 p)), (append_4 _ (slice 0 3 p')) in Heq;
    apply append_inj_suffix in Heq as [_ Hs];
    [ rewrite !append_cons in Hs; discriminate Hs
    | rewrite !length_append; reflexivity ].
Qed.

Lemma av_routes_have_distinct_keys_witness : "60min" = "60min".
Proof.
  apply (av_routes_have_distinct_keys (Some "KEY") "EURUSD" "EURUSD"
           "60min" "60min").
  - right. left. reflexivity.
  - right. left. reflexivity.
  - reflexivity.
Defined.

(** X9. Only the first six characters of [pair] reach the URL. In the Twelve
    Data variant the cache key still holds the whole string, so a longer
    pair fetches the same URL under a key of its own; in the AlphaVantage
    variant the key is the URL and is shared. *)
Theorem url_reads_six_characters (API_KEY : option string)
    (p extra interval : string) :
  String.length p = 6%nat ->
  TwelveData.twelveDataUrl API_KEY (p ++ extra) interval
    = TwelveData.twelveDataUrl API_KEY p interval /\
  AlphaVantage.alphaUrl API_KEY (p ++ extra) interval
    = AlphaVantage.alphaUrl API_KEY p interval /\
  (extra <> "" -> (p ++ extra) ++ "-" ++ interval <> p ++ "-" ++ interval).
Proof.
  intros Hlen. unfold TwelveData.twelveDataUrl, AlphaVantage.alphaUrl.
  rewrite slice_0_3_append, slice_3_6_append by lia.
  split; [reflexivity|]. split; [reflexivity|].
  intros Hextra Heq.
  destruct (append_inj_suffix _ _ _ _ eq_refl Heq) as [Hp _].
  apply Hextra. 
  assert (String.length (p ++ extra) = String.length p) by now rewrite Hp.
  rewrite length_append in H. destruct extra; [reflexivity | simpl in H; lia].
Qed.

Lemma url_reads_six_characters_witness :
  TwelveData.twelveDataUrl (Some "KEY") ("EURUSD" ++ "=X") "daily"
    = TwelveData.twelveDataUrl (Some "KEY") "EURUSD" "daily".
Proof.
  apply (url_reads_six_characters (Some "KEY") "EURUSD" "=X" "daily").
  reflexivity.
Defined.

(** ** Classification of the answers *)

Section Classification.

Variable API_KEY : option string.
Variable parseFloat : jsval -> Exn jsnum.
Variable ToString : jsval -> Exn string.

#[local] Arguments get_field : simpl never.
#[local] Arguments keys : simpl never.
#[local] Arguments truthy : simpl never.
#[local] Arguments isArray : simpl never.
#[local] Arguments strict_eq_str : simpl never.
#[local] Arguments strict_eq_num : simpl never.

(** The answer of a live route whose read of the cache misses, from the
    outcome of the [try] block. *)
Lemma td_route_miss interval volatility w p c :
  p <> "" ->
  fst (Cache.get c (t_get w) (p ++ "-" ++ interval)) = None ->
  fst (fst (TwelveData.candles_route API_KEY false parseFloat ToString
              interval volatility w (Some p) c)) =
  match TwelveData.parse parseFloat ToString (upstream w) with
  | Ret result => json_ok (Candles result)
  | Throw m =>
      if String.eqb m "API_LIMIT_REACHED" || String.eqb m "API_LIMIT"
      then TwelveData.API_LIMIT_REACHED
      else SERVER_ERROR m
  end.
Proof.
  intros Hp Hmiss. rewrite (td_route_live _ _ _ _ _ _ _ _ Hp).
  destruct (Cache.get c _ _) as [cached c1] eqn:Hg. simpl in Hmiss; subst cached.
  rewrite (td_fetch_miss _ _ _ _ _ _ _ _ _ _ Hg).
  destruct (TwelveData.parse _ _ _) as [m|r]; [|reflexivity].
  unfold rethrow. destruct (String.eqb m "API_LIMIT_REACHED") eqn:H1; simpl.
  - reflexivity.
  - destruct (String.eqb m "API_LIMIT"); reflexivity.
Qed.

Lemma av_route_miss interval volatility w p c :
  p <> "" ->
  fst (Cache.get c (t_get w) (AlphaVantage.alphaUrl API_KEY p interval)) = None ->
  fst (fst (AlphaVantage.candles_route API_KEY false parseFloat ToString
              interval volatility w (Some p) c)) =
  match AlphaVantage.parse parseFloat ToString (upstream w) with
  | Ret result => json_ok (Candles result)
  | Throw m =>
      if String.eqb m "API_LIMIT_REACHED" || String.eqb m "API_LIMIT"
      then AlphaVantage.API_LIMIT_REACHED
      else SERVER_ERROR m
  end.
Proof.
  intros Hp Hmiss. rewrite (av_route_live _ _ _ _ _ _ _ _ Hp).
  destruct (Cache.get c _ _) as [cached c1] eqn:Hg. simpl in Hmiss; subst cached.
  rewrite (av_fetch_miss _ _ _ _ _ _ _ _ Hg).
  destruct (AlphaVantage.parse _ _ _) as [m|r]; [|reflexivity].
  unfold rethrow. destruct (String.eqb m "API_LIMIT_REACHED") eqn:H1; simpl.
  - reflexivity.
  - destruct (String.eqb m "API_LIMIT"); reflexivity.
Qed.

End Classification.

(** X10. A response of the provider that is not ok is answered 500 with the
    message [HTTP <status>: <statusText>], in both variants; its body is not
    read, and an HTTP 429 of the provider is a 500 like any other. *)
Theorem transport_error_is_500 (API_KEY : option string)
    (parseFloat : jsval -> Exn jsnum) (ToString : jsval -> Exn string)
    (interval : string) (volatility : Q) (w : Oracle) (p : string)
    (c : Cache.t) (st : nat) (text : string) (body : Exn json) :
  p <> "" ->
  upstream w = Responded false st text body ->
  (fst (Cache.get c (t_get w) (p ++ "-" ++ interval)) = None ->
   fst (fst (TwelveData.candles_route API_KEY false parseFloat ToString
               interval volatility w (Some p) c))
     = SERVER_ERROR ("HTTP " ++ pretty st ++ ": " ++ text)) /\
  (fst (Cache.get c (t_get w) (AlphaVantage.alphaUrl API_KEY p interval)) = None ->
   fst (fst (AlphaVantage.candles_route API_KEY false parseFloat ToString
               interval volatility w (Some p) c))
     = SERVER_ERROR ("HTTP " ++ pretty st ++ ": " ++ text)).
Proof.
  intros Hp Hup. split; intros Hmiss.
  - rewrite (td_route_miss _ _ _ _ _ _ _ _ Hp Hmiss), Hup. reflexivity.
  - rewrite (av_route_miss _ _ _ _ _ _ _ _ Hp Hmiss), Hup. reflexivity.
Qed.

Lemma transport_error_is_500_witness :
  fst (fst (TwelveData.candles_route (Some "KEY") false parseFloat_decimal
              ToString_text "daily" (1 # 100)
              (oracle_of 1000 (Responded false 429 "Too Many Requests"
                                 (Ret td_rate_limited)))
              (Some "EURUSD") (Cache.new 300000)))
  = SERVER_ERROR ("HTTP " ++ pretty 429%nat ++ ": " ++ "Too Many Requests").
Proof.
  apply (proj1 (transport_error_is_500 (Some "KEY") parseFloat_decimal
                  ToString_text "daily" (1 # 100)
                  (oracle_of 1000 (Responded false 429 "Too Many Requests"
                                     (Ret td_rate_limited)))
                  "EURUSD" (Cache.new 300000) 429 "Too Many Requests"
                  (Ret td_rate_limited)
                  ltac:(discriminate) ltac:(reflexivity))).
  reflexivity.
Defined.

(** X11. A live request that reaches the provider is answered 429 exactly
    when the error thrown in the [try] block of [fetchCandles] has the
    message [API_LIMIT_REACHED] or [API_LIMIT], wherever it was thrown. *)
Theorem status_429_iff (API_KEY : option string)
    (parseFloat : jsval -> Exn jsnum) (ToString : jsval -> Exn string)
    (interval : string) (volatility : Q) (w : Oracle) (p : string)
    (c : Cache.t) :
  p <> "" ->
  (fst (Cache.get c (t_get w) (p ++ "-" ++ interval)) = None ->
   (status (fst (fst (TwelveData.candles_route API_KEY false parseFloat
                        ToString interval volatility w (Some p) c))) = 429%nat
    <-> TwelveData.parse parseFloat ToString (upstream w)
          = Throw "API_LIMIT_REACHED" \/
        TwelveData.parse parseFloat ToString (upstream w)
          = Throw "API_LIMIT")) /\
  (fst (Cache.get c (t_get w) (AlphaVantage.alphaUrl API_KEY p interval)) = None ->
   (status (fst (fst (AlphaVantage.candles_route API_KEY false parseFloat
                        ToString interval volatility w (Some p) c))) = 429%nat
    <-> AlphaVantage.parse parseFloat ToString (upstream w)
          = Throw "API_LIMIT_REACHED" \/
        AlphaVantage.parse parseFloat ToString (upstream w)
          = Throw "API_LIMIT")).
Proof.
  intros Hp. split; intros Hmiss.
  - rewrite (td_route_miss _ _ _ _ _ _ _ _ Hp Hmiss).
    destruct (TwelveData.parse _ _ _) as [m|r].
    + destruct (String.eqb_spec m "API_LIMIT_REACHED") as [->|H1]; simpl.
      { split; auto. }
      destruct (String.eqb_spec m "API_LIMIT") as [->|H2]; simpl.
      { split; auto. }
      split; [discriminate|]. intros [[= ->] | [= ->]]; congruence.
    + simpl. split; [discriminate|]. intros [|]; discriminate.
  - rewrite (av_route_miss _ _ _ _ _ _ _ _ Hp Hmiss).
    destruct (AlphaVantage.parse _ _ _) as [m|r].
    + destruct (String.eqb_spec m "API_LIMIT_REACHED") as [->|H1]; simpl.
      { split; auto. }
      destruct (String.eqb_spec m "API_LIMIT") as [->|H2]; simpl.
      { split; auto. }
      split; [discriminate|]. intros [[= ->] | [= ->]]; congruence.
    + simpl. split; [discriminate|]. intros [|]; discriminate.
Qed.


Lemma status_429_iff_witness :
  status (fst (fst (AlphaVantage.candles_route (Some "KEY") false
                      parseFloat_decimal ToString_text "daily" (1 # 100)
                      (oracle_of 1000 (Rejected "API_LIMIT"))
                      (Some "EURUSD") (Cache.new 300000)))) = 429%nat.
Proof.
  apply (proj2 (status_429_iff (Some "KEY") parseFloat_decimal ToString_text
                  "daily" (1 # 100) (oracle_of 1000 (Rejected "API_LIMIT"))
                  "EURUSD" (Cache.new 300000) ltac:(discriminate))).
  - reflexivity.
  - right. reflexivity.
Defined.

(** X12. Whatever the request, the mode and the provider's answer, a candle
    route answers either 200 with a list of candles or 400, 429 or 500 with
    an error object. *)
Theorem answers_have_shape (API_KEY : option string) (DEMO_MODE : bool)
    (parseFloat : jsval -> Exn jsnum) (ToString : jsval -> Exn string)
    (interval : string) (volatility : Q) (w : Oracle) (pair : option string)
    (c : Cache.t) :
  answer_shape
    (fst (fst (TwelveData.candles_route API_KEY DEMO_MODE parseFloat ToString
                 interval volatility w pair c))) /\
  answer_shape
    (fst (fst (AlphaVantage.candles_route API_KEY DEMO_MODE parseFloat
                 ToString interval volatility w pair c))).
Proof.
  unfold answer_shape. split.
  - unfold TwelveData.candles_route. destruct (missing pair).
    { right. simpl. eauto 10. }
    destruct DEMO_MODE. { left. simpl. eauto. }
    destruct (TwelveData.fetchCandles _ _ _ _ _ _ _ _ _) as [[[m|r] c'] evs].
    + destruct (String.eqb m "API_LIMIT"); right; simpl; eauto 10.
    + left. simpl. eauto.
  - unfold AlphaVantage.candles_route. destruct (missing pair).
    { right. simpl. eauto 10. }
    destruct DEMO_MODE. { left. simpl. eauto. }
    destruct (AlphaVantage.fetchCandles _ _ _ _ _ _ _) as [[[m|r] c'] evs].
    + destruct (String.eqb m "API_LIMIT"); right; simpl; eauto 10.
    + left. simpl. eauto.
Qed.

(** ** Records of a series *)

Section Records.

Variable parseFloat : jsval -> Exn jsnum.

#[local] Arguments get_field : simpl never.

Lemma mapM_Ret_Forall2 {A B : Type} (f : A -> Exn B) (l : list A) (cs : list B) :
  mapM f l = Ret cs <-> Forall2 (fun x c => f x = Ret c) l cs.
Proof.
  revert cs. induction l as [|x l IH]; intros cs; simpl.
  - split; [intros [= <-]; constructor | now inversion 1].
  - destruct (f x) as [m|c] eqn:Hx; simpl.
    + split; [discriminate|].
      inversion 1 as [|? y ? l' Hy Hrest]; subst. simpl in Hy.
      rewrite Hx in Hy. discriminate.
    + destruct (mapM f l) as [m|cs'] eqn:Hl; simpl.
      * split; [discriminate|]. inversion 1 as [|? c' ? cs'' ? Hrest]; subst.
        apply IH in Hrest. discriminate.
      * split.
        -- intros [= <-]. constructor; [exact Hx | now apply IH].
        -- inversion 1 as [|? c' ? cs'' Hc Hrest]; subst.
           apply IH in Hrest. simpl in Hc. rewrite Hx in Hc.
           injection Hc as <-. injection Hrest as <-. reflexivity.
Qed.

Lemma mapM_first_throw {A B : Type} (f : A -> Exn B) (good rest : list A)
    (x : A) (cs : list B) (m : string) :
  mapM f good = Ret cs -> f x = Throw m ->
  mapM f (good ++ x :: rest) = Throw m.
Proof.
  revert cs. induction good as [|g good IH]; intros cs; simpl.
  - intros _ Hx. now rewrite Hx.
  - destruct (f g) as [|c]; simpl; [discriminate|].
    destruct (mapM f good) as [|cs'] eqn:Hgood; simpl; [discriminate|].
    intros _ Hx. now rewrite (IH cs' eq_refl Hx).
Qed.

Lemma mapM_throw_first {A B : Type} (f : A -> Exn B) (l : list A) (m : string) :
  mapM f l = Throw m ->
  exists good x rest cs,
    l = (good ++ x :: rest)%list /\ mapM f good = Ret cs /\ f x = Throw m.
Proof.
  induction l as [|x l IH]; simpl; [discriminate|].
  destruct (f x) as [m'|c] eqn:Hx; simpl.
  - intros [= ->]. exists [], x, l, []. auto.
  - destruct (mapM f l) as [m'|cs] eqn:Hl; simpl; [|discriminate].
    intros [= ->]. destruct (IH eq_refl) as (good & y & rest & cs & -> & Hg & Hy).
    exists (x :: good), y, rest, (c :: cs). simpl. rewrite Hx, Hg. auto.
Qed.

Lemma td_toCandle_iff (item : json) (c : Candle) :
  TwelveData.toCandle parseFloat item = Ret c <-> td_fields parseFloat item c.
Proof.
  unfold TwelveData.toCandle, td_fields. split.
  - destruct (get_field item "datetime") as [|d]; simpl; [discriminate|].
    destruct (get_field item "open") as [|o]; simpl; [discriminate|].
    destruct (parseFloat o) as [|po] eqn:Ho; simpl; [discriminate|].
    destruct (get_field item "high") as [|h]; simpl; [discriminate|].
    destruct (parseFloat h) as [|ph] eqn:Hh; simpl; [discriminate|].
    destruct (get_field item "low") as [|l]; simpl; [discriminate|].
    destruct (parseFloat l) as [|pl] eqn:Hl; simpl; [discriminate|].
    destruct (get_field item "close") as [|x]; simpl; [discriminate|].
    destruct (parseFloat x) as [|px] eqn:Hx; simpl; [discriminate|].
    intros [= <-]. simpl. eauto 20.
  - intros (Hd & (o & Ho & Hpo) & (h & Hh & Hph) & (l & Hl & Hpl) & (x & Hx & Hpx)).
    rewrite Hd; simpl. rewrite Ho; simpl. rewrite Hpo; simpl.
    rewrite Hh; simpl. rewrite Hph; simpl. rewrite Hl; simpl. rewrite Hpl; simpl.
    rewrite Hx; simpl. rewrite Hpx; simpl. now destruct c.
Qed.

Lemma av_toCandle_iff (entry : string * json) (c : Candle) :
  AlphaVantage.toCandle parseFloat entry = Ret c <-> av_fields parseFloat entry c.
Proof.
  destruct entry as [t ohlc]. unfold AlphaVantage.toCandle, av_fields. simpl fst.
  simpl snd. split.
  - destruct (get_field ohlc "1. open") as [|o]; simpl; [discriminate|].
    destruct (parseFloat o) as [|po] eqn:Ho; simpl; [discriminate|].
    destruct (get_field ohlc "2. high") as [|h]; simpl; [discriminate|].
    destruct (parseFloat h) as [|ph] eqn:Hh; simpl; [discriminate|].
    destruct (get_field ohlc "3. low") as [|l]; simpl; [discriminate|].
    destruct (parseFloat l) as [|pl] eqn:Hl; simpl; [discriminate|].
    destruct (get_field ohlc "4. close") as [|x]; simpl; [discriminate|].
    destruct (parseFloat x) as [|px] eqn:Hx; simpl; [discriminate|].
    intros [= <-]. simpl. eauto 20.
  - intros (Ht & (o & Ho & Hpo) & (h & Hh & Hph) & (l & Hl & Hpl) & (x & Hx & Hpx)).
    rewrite Ho; simpl. rewrite Hpo; simpl.
    rewrite Hh; simpl. rewrite Hph; simpl. rewrite Hl; simpl. rewrite Hpl; simpl.
    rewrite Hx; simpl. rewrite Hpx; simpl. destruct c; simpl in *. now subst.
Qed.

End Records.

(** X13. The records of a series are mapped one to one and in order. The
    mapping returns candles exactly when every record gives one: it is not
    [null] and [parseFloat] returns on its four prices; there are then as
    many candles as records and each candle carries the time and the parsed
    prices of its record. Otherwise it throws the error of the first record
    that gives none, which for a [null] record is the [TypeError] of reading
    its first property, and yields no candle at all. *)
Theorem records_mapped_or_rejected (parseFloat : jsval -> Exn jsnum)
    (items : list json) (es : list (string * json)) :
  (forall candles,
     mapM (TwelveData.toCandle parseFloat) items = Ret candles <->
     Forall2 (td_fields parseFloat) items candles) /\
  (forall candles,
     mapM (TwelveData.toCandle parseFloat) items = Ret candles ->
     length candles = length items) /\
  (forall m,
     mapM (TwelveData.toCandle parseFloat) items = Throw m ->
     exists good item rest cs,
       items = (good ++ item :: rest)%list /\
       mapM (TwelveData.toCandle parseFloat) good = Ret cs /\
       TwelveData.toCandle parseFloat item = Throw m /\
       (item = JNull -> m = TypeError_null "datetime")) /\
  (forall candles,
     mapM (AlphaVantage.toCandle parseFloat) es = Ret candles <->
     Forall2 (av_fields parseFloat) es candles) /\
  (forall candles,
     mapM (AlphaVantage.toCandle parseFloat) es = Ret candles ->
     length candles = length es) /\
  (forall m,
     mapM (AlphaVantage.toCandle parseFloat) es = Throw m ->
     exists good entry rest cs,
       es = (good ++ entry :: rest)%list /\
       mapM (AlphaVantage.toCandle parseFloat) good = Ret cs /\
       AlphaVantage.toCandle parseFloat entry = Throw m /\
       (snd entry = JNull -> m = TypeError_null "1. open")).
Proof.
  split; [|split; [|split; [|split; [|split]]]].
  - intros candles. rewrite mapM_Ret_Forall2. split; intros H;
      (eapply Forall2_impl; [exact H|]); intros x y; apply td_toCandle_iff.
  - intros candles H. apply mapM_Ret_Forall2 in H. symmetry.
    exact (Forall2_length _ _ _ H).
  - intros m H. destruct (mapM_throw_first _ _ _ H)
      as (good & item & rest & cs & -> & Hg & Hi).
    exists good, item, rest, cs. repeat split; try assumption.
    intros ->. simpl in Hi. now injection Hi as <-.
  - intros candles. rewrite mapM_Ret_Forall2. split; intros H;
      (eapply Forall2_impl; [exact H|]); intros x y; apply av_toCandle_iff.
  - intros candles H. apply mapM_Ret_Forall2 in H. symmetry.
    exact (Forall2_length _ _ _ H).
  - intros m H. destruct (mapM_throw_first _ _ _ H)
      as (good & [t ohlc] & rest & cs & -> & Hg & Hi).
    exists good, (t, ohlc), rest, cs. repeat split; try assumption.
    simpl. intros ->. simpl in Hi. now injection Hi as <-.
Qed.

Lemma records_mapped_or_rejected_witness :
  length [td_candle "2024-01-02"; td_candle "2024-01-01"]
  = length [td_record "2024-01-02"; td_record "2024-01-01"].
Proof.
  apply (proj1 (proj2 (records_mapped_or_rejected parseFloat_decimal
                         [td_record "2024-01-02"; td_record "2024-01-01"] []))).
  vm_compute. reflexivity.
Defined.

Section ObjectBodies.

Variable parseFloat : jsval -> Exn jsnum.
Variable ToString : jsval -> Exn string.

#[local] Arguments truthy : simpl never.
#[local] Arguments isArray : simpl never.
#[local] Arguments strict_eq_str : simpl never.
#[local] Arguments strict_eq_num : simpl never.

(** The [try] block of Twelve Data on an object body. *)
Lemma td_parse_object st text fields :
  TwelveData.parse parseFloat ToString (Responded true st text (Ret (JObj fields))) =
  if strict_eq_str (assoc "status" fields) "error"
  then match ToString (assoc "message" fields) with
       | Ret text => Throw ("API_ERROR: " ++ text)
       | Throw m => Throw m
       end
  else if strict_eq_num (assoc "code" fields) 429
  then Throw "API_LIMIT_REACHED"
  else match assoc "values" fields with
       | Some (JArr items) =>
           match mapM (TwelveData.toCandle parseFloat) items with
           | Ret candles => Ret (rev candles)
           | Throw m => Throw m
           end
       | _ => Throw "NO_TIME_SERIES_DATA"
       end.
Proof.
  simpl. destruct (strict_eq_str _ _); [now destruct (ToString _)|].
  destruct (strict_eq_num _ _); [reflexivity|].
  destruct (assoc "values" fields) as [[| | | |items|]|]; try reflexivity.
  - destruct b; reflexivity.
  - unfold truthy. destruct (negb (Qeq_bool q 0)); reflexivity.
  - unfold truthy. destruct (negb (String.eqb s "")); reflexivity.
Qed.

(** The [try] block of AlphaVantage on an object body. *)
Lemma av_parse_object st text fields :
  AlphaVantage.parse parseFloat ToString (Responded true st text (Ret (JObj fields))) =
  if truthy (assoc "Note" fields)
  then Throw "API_LIMIT_REACHED"
  else if truthy (assoc "Error Message" fields)
  then match ToString (assoc "Error Message" fields) with
       | Ret text => Throw ("API_ERROR: " ++ text)
       | Throw m => Throw m
       end
  else match find (fun k => includes "Time Series" k) (map fst fields) with
       | None => Throw "NO_TIME_SERIES_DATA"
       | Some key =>
           match AlphaVantage.entries_of (assoc key fields) with
           | Throw m => Throw m
           | Ret es =>
               match mapM (AlphaVantage.toCandle parseFloat) es with
               | Ret candles => Ret (rev candles)
               | Throw m => Throw m
               end
           end
       end.
Proof.
  simpl. destruct (truthy (assoc "Note" fields)); [reflexivity|].
  destruct (truthy (assoc "Error Message" fields)); [now destruct (ToString _)|].
  destruct (find _ _); [|reflexivity]. simpl.
  destruct (AlphaVantage.entries_of _); [reflexivity|]. simpl.
  destruct (mapM _ _); reflexivity.
Qed.

End ObjectBodies.

(** X14. A body that declares a provider error is answered 500 with the
    message [API_ERROR: ] followed by the provider's text as the template
    literal renders it: for Twelve Data a [status] equal to ['error'],
    whatever the rest of the body; for AlphaVantage a truthy [Error Message]
    under a falsy [Note]. When the rendering itself throws, the answer
    carries the message of that error instead. *)
Theorem provider_error_is_500 (API_KEY : option string)
    (parseFloat : jsval -> Exn jsnum) (ToString : jsval -> Exn string)
    (interval : string) (volatility : Q) (w : Oracle) (p : string)
    (c : Cache.t) (st : nat) (text : string) (fields : list (string * json)) :
  p <> "" ->
  upstream w = Responded true st text (Ret (JObj fields)) ->
  (fst (Cache.get c (t_get w) (p ++ "-" ++ interval)) = None ->
   strict_eq_str (assoc "status" fields) "error" = true ->
   fst (fst (TwelveData.candles_route API_KEY false parseFloat ToString
               interval volatility w (Some p) c))
     = match ToString (assoc "message" fields) with
       | Ret rendered => SERVER_ERROR ("API_ERROR: " ++ rendered)
       | Throw m =>
           if String.eqb m "API_LIMIT_REACHED" || String.eqb m "API_LIMIT"
           then TwelveData.API_LIMIT_REACHED
           else SERVER_ERROR m
       end) /\
  (fst (Cache.get c (t_get w) (AlphaVantage.alphaUrl API_KEY p interval)) = None ->
   truthy (assoc "Note" fields) = false ->
   truthy (assoc "Error Message" fields) = true ->
   fst (fst (AlphaVantage.candles_route API_KEY false parseFloat ToString
               interval volatility w (Some p) c))
     = match ToString (assoc "Error Message" fields) with
       | Ret rendered => SERVER_ERROR ("API_ERROR: " ++ rendered)
       | Throw m =>
           if String.eqb m "API_LIMIT_REACHED" || String.eqb m "API_LIMIT"
           then AlphaVantage.API_LIMIT_REACHED
           else SERVER_ERROR m
       end).
Proof.
  intros Hp Hup. split.
  - intros Hmiss Herr.
    rewrite (td_route_miss _ _ _ _ _ _ _ _ Hp Hmiss), Hup, td_parse_object, Herr.
    destruct (ToString _); reflexivity.
  - intros Hmiss Hnote Herr.
    rewrite (av_route_miss _ _ _ _ _ _ _ _ Hp Hmiss), Hup, av_parse_object,
      Hnote, Herr.
    destruct (ToString _); reflexivity.
Qed.

Lemma provider_error_is_500_witness :
  fst (fst (AlphaVantage.candles_route (Some "KEY") false parseFloat_decimal
              ToString_text "daily" (1 # 100)
              (oracle_of 1000
                 (answer (JObj [("Error Message", JStr "Invalid API call.")])))
              (Some "EURUSD") (Cache.new 300000)))
  = match ToString_text (assoc "Error Message"
                           [("Error Message", JStr "Invalid API call.")]) with
    | Ret rendered => SERVER_ERROR ("API_ERROR: " ++ rendered)
    | Throw m =>
        if String.eqb m "API_LIMIT_REACHED" || String.eqb m "API_LIMIT"
        then AlphaVantage.API_LIMIT_REACHED
        else SERVER_ERROR m
    end.
Proof.
  apply (proj2 (provider_error_is_500 (Some "KEY") parseFloat_decimal
                  ToString_text "daily" (1 # 100)
                  (oracle_of 1000
                     (answer (JObj [("Error Message", JStr "Invalid API call.")])))
                  "EURUSD" (Cache.new 300000) 200 "OK"
                  [("Error Message", JStr "Invalid API call.")]
                  ltac:(discriminate) ltac:(reflexivity)));
    reflexivity.
Defined.

(** X15. An object body without a time series is answered 500 with the
    message [NO_TIME_SERIES_DATA]: for Twelve Data when it is neither an
    error nor a rate limit and [values] is not an array; for AlphaVantage
    when [Note] and [Error Message] are falsy and no field name includes
    ["Time Series"]. *)
Theorem no_series_is_500 (API_KEY : option string)
    (parseFloat : jsval -> Exn jsnum) (ToString : jsval -> Exn string)
    (interval : string) (volatility : Q) (w : Oracle) (p : string)
    (c : Cache.t) (st : nat) (text : string) (fields : list (string * json)) :
  p <> "" ->
  upstream w = Responded true st text (Ret (JObj fields)) ->
  (fst (Cache.get c (t_get w) (p ++ "-" ++ interval)) = None ->
   strict_eq_str (assoc "status" fields) "error" = false ->
   strict_eq_num (assoc "code" fields) 429 = false ->
   isArray (assoc "values" fields) = false ->
   fst (fst (TwelveData.candles_route API_KEY false parseFloat ToString
               interval volatility w (Some p) c))
     = SERVER_ERROR "NO_TIME_SERIES_DATA") /\
  (fst (Cache.get c (t_get w) (AlphaVantage.alphaUrl API_KEY p interval)) = None ->
   truthy (assoc "Note" fields) = false ->
   truthy (assoc "Error Message" fields) = false ->
   Forall (fun k => includes "Time Series" k = false) (map fst fields) ->
   fst (fst (AlphaVantage.candles_route API_KEY false parseFloat ToString
               interval volatility w (Some p) c))
     = SERVER_ERROR "NO_TIME_SERIES_DATA").
Proof.
  intros Hp Hup. split.
  - intros Hmiss Herr Hcode Harr.
    rewrite (td_route_miss _ _ _ _ _ _ _ _ Hp Hmiss), Hup, td_parse_object,
      Herr, Hcode.
    destruct (assoc "values" fields) as [[| | | |items|]|]; try reflexivity.
    discriminate Harr.
  - intros Hmiss Hnote Herr Hkeys.
    rewrite (av_route_miss _ _ _ _ _ _ _ _ Hp Hmiss), Hup, av_parse_object,
      Hnote, Herr.
    destruct (find _ _) as [key|] eqn:Hfind; [|reflexivity].
    apply find_some in Hfind as [Hin Hinc].
    rewrite List.Forall_forall in Hkeys. rewrite (Hkeys _ Hin) in Hinc.
    discriminate.
Qed.

Lemma no_series_is_500_witness :
  fst (fst (TwelveData.candles_route (Some "KEY") false parseFloat_decimal
              ToString_text "daily" (1 # 100)
              (oracle_of 1000 (answer (JObj [("values", JStr "none")])))
              (Some "EURUSD") (Cache.new 300000)))
  = SERVER_ERROR "NO_TIME_SERIES_DATA".
Proof.
  apply (proj1 (no_series_is_500 (Some "KEY") parseFloat_decimal
                  ToString_text "daily" (1 # 100)
                  (oracle_of 1000 (answer (JObj [("values", JStr "none")])))
                  "EURUSD" (Cache.new 300000) 200 "OK"
                  [("values", JStr "none")]
                  ltac:(discriminate) ltac:(reflexivity)));
    reflexivity.
Defined.

(** X16. Twelve Data: a [null] record among [data.values] rejects the whole
    series. When the records before it give their candles, the request is
    answered 500 with the [TypeError] of reading [datetime] of [null],
    nothing is stored, and the candles of the records before it are lost
    with it. *)
Theorem null_record_is_500 (API_KEY : option string)
    (parseFloat : jsval -> Exn jsnum) (ToString : jsval -> Exn string)
    (interval : string) (volatility : Q) (w : Oracle) (p : string)
    (c : Cache.t) (st : nat) (text : string) (fields : list (string * json))
    (good rest : list json) (cs : list Candle) :
  p <> "" ->
  upstream w = Responded true st text (Ret (JObj fields)) ->
  fst (Cache.get c (t_get w) (p ++ "-" ++ interval)) = None ->
  strict_eq_str (assoc "status" fields) "error" = false ->
  strict_eq_num (assoc "code" fields) 429 = false ->
  assoc "values" fields = Some (JArr (good ++ JNull :: rest)) ->
  mapM (TwelveData.toCandle parseFloat) good = Ret cs ->
  TwelveData.candles_route API_KEY false parseFloat ToString
    interval volatility w (Some p) c
  = (SERVER_ERROR (TypeError_null "datetime"),
     snd (Cache.get c (t_get w) (p ++ "-" ++ interval)),
     [EvCacheGet (p ++ "-" ++ interval);
      EvFetch (TwelveData.twelveDataUrl API_KEY p interval)]).
Proof.
  intros Hp Hup Hmiss Herr Hcode Hvalues Hgood.
  rewrite (td_route_live _ _ _ _ _ _ _ _ Hp).
  destruct (Cache.get c _ _) as [cached c1] eqn:Hg. simpl in Hmiss; subst cached.
  rewrite (td_fetch_miss _ _ _ _ _ _ _ _ _ _ Hg), Hup, td_parse_object,
    Herr, Hcode, Hvalues.
  rewrite (mapM_first_throw (TwelveData.toCandle parseFloat) good rest JNull cs
             (TypeError_null "datetime") Hgood eq_refl).
  reflexivity.
Qed.

Lemma null_record_is_500_witness :
  TwelveData.candles_route (Some "KEY") false parseFloat_decimal ToString_text
    "daily" (1 # 100)
    (oracle_of 1000
       (answer (JObj [("values", JArr ([td_record "2024-01-02"] ++ JNull :: []))])))
    (Some "EURUSD") (Cache.new 300000)
  = (SERVER_ERROR (TypeError_null "datetime"),
     snd (Cache.get (Cache.new 300000)
            (t_get (oracle_of 1000
                      (answer (JObj [("values",
                                      JArr ([td_record "2024-01-02"] ++
                                            JNull :: []))]))))
            ("EURUSD" ++ "-" ++ "daily")),
     [EvCacheGet ("EURUSD" ++ "-" ++ "daily");
      EvFetch (TwelveData.twelveDataUrl (Some "KEY") "EURUSD" "daily")]).
Proof.
  apply (null_record_is_500 (Some "KEY") parseFloat_decimal ToString_text
           "daily" (1 # 100)
           (oracle_of 1000
              (answer (JObj [("values",
                              JArr ([td_record "2024-01-02"] ++ JNull :: []))])))
           "EURUSD" (Cache.new 300000) 200 "OK"
           [("values", JArr ([td_record "2024-01-02"] ++ JNull :: []))]
           [td_record "2024-01-02"] [] [td_candle "2024-01-02"]);
    try reflexivity.
  discriminate.
Defined.

(** ** More on the demo generator *)

Section MoreDemoFacts.

Variable random : nat -> Q.
Variable now : nat -> Z.
Variable count : nat.
Variable volatility : Q.

Lemma demo_loop_times fuel i price candles :
  map time (demo_loop random now count volatility fuel i price candles) =
  (map time candles ++
   map (fun j => Some (JStr (isoDate
          (now j - (Z.of_nat count - Z.of_nat j) * 86400000)%Z)))
       (seq i fuel))%list.
Proof.
  revert i price candles.
  induction fuel as [|fuel IH]; intros i price candles; cbn [demo_loop seq map].
  - now rewrite app_nil_r.
  - rewrite IH, map_app. cbn [map time]. now rewrite <- app_assoc.
Qed.

Lemma demo_loop_ext random' now' fuel i price candles :
  (forall k, (4 * i <= k < 4 * (i + fuel))%nat -> random' k = random k) ->
  (forall j, (i <= j < i + fuel)%nat -> now' j = now j) ->
  demo_loop random' now' count volatility fuel i price candles =
  demo_loop random now count volatility fuel i price candles.
Proof.
  revert i price candles.
  induction fuel as [|fuel IH]; intros i price candles Hr Hn; cbn [demo_loop];
    [reflexivity|].
  rewrite !Hr, Hn by lia. apply IH.
  - intros k Hk. apply Hr. lia.
  - intros j Hj. apply Hn. lia.
Qed.

Lemma step_bounds (r : Q) :
  (0 <= r)%Q -> (r < 1)%Q -> (0 <= volatility)%Q ->
  (0 <= r * volatility)%Q /\ (r * volatility <= volatility)%Q.
Proof.
  intros H0 H1 Hv. split; [now apply Qmult_le_0_compat|].
  assert (0 <= (1 - r) * volatility)%Q by (apply Qmult_le_0_compat; lra). lra.
Qed.

Lemma demo_loop_bounded basePrice total fuel i price candles d :
  is_random random -> (0 <= volatility)%Q ->
  (basePrice - d <= price)%Q -> (price <= basePrice + d)%Q ->
  (d + reach fuel volatility <= total)%Q ->
  Forall (prices_within (round5 (basePrice - total)) (round5 (basePrice + total)))
    candles ->
  Forall (prices_within (round5 (basePrice - total)) (round5 (basePrice + total)))
    (demo_loop random now count volatility fuel i price candles).
Proof.
  intros Hr Hv. revert i price candles d.
  induction fuel as [|fuel IH]; intros i price candles d Hlo Hhi Hreach Hok;
    cbn [demo_loop]; [exact Hok|].
  destruct (Hr (4 * i)%nat) as [Ha0 Ha1]. destruct (Hr (4 * i + 1)%nat) as [Hb0 Hb1].
  destruct (Hr (4 * i + 2)%nat) as [Hc0 Hc1]. destruct (Hr (4 * i + 3)%nat) as [Hd0 Hd1].
  destruct (step_bounds _ Ha0 Ha1 Hv) as [Ha Ha']. destruct (step_bounds _ Hb0 Hb1 Hv) as [Hb Hb'].
  destruct (step_bounds _ Hc0 Hc1 Hv) as [Hc Hc']. destruct (step_bounds _ Hd0 Hd1 Hv) as [Hd Hd'].
  set (o := (price + (random (4 * i)%nat - (1 # 2)) * volatility)%Q) in *.
  set (cl := (o + (random (4 * i + 1)%nat - (1 # 2)) * volatility * (1 # 2))%Q) in *.
  pose proof (Math_max_l o cl). pose proof (Math_max_r o cl).
  pose proof (Math_min_l o cl). pose proof (Math_min_r o cl).
  assert (Hmax : (Math_max o cl <= o \/ Math_max o cl <= cl)%Q).
  { unfold Math_max. destruct (Qle_bool o cl); [right | left]; lra. }
  assert (Hmin : (o <= Math_min o cl \/ cl <= Math_min o cl)%Q).
  { unfold Math_min. destruct (Qle_bool o cl); [left | right]; lra. }
  assert (Hn : (0 <= inject_Z (Z.of_nat fuel) * volatility)%Q).
  { apply Qmult_le_0_compat; [|exact Hv]. unfold Qle; simpl. lia. }
  assert (Hs : (reach (S fuel) volatility
                == reach fuel volatility + (3 # 4) * volatility)%Q).
  { unfold reach. rewrite Nat2Z.inj_succ, <- Z.add_1_r, inject_Z_plus. ring. }
  rewrite Hs in Hreach.
  assert (Hreach0 : (0 <= reach fuel volatility - (3 # 10) * volatility)%Q)
    by (unfold reach; lra).
  assert (Ho : (o == price + (random (4 * i)%nat - (1 # 2)) * volatility)%Q)
    by reflexivity.
  assert (Hcl : (cl == o + (random (4 * i + 1)%nat - (1 # 2)) * volatility * (1 # 2))%Q)
    by reflexivity.
  clearbody o cl.
  apply (IH _ _ _ (d + (3 # 4) * volatility)%Q).
  - lra.
  - lra.
  - lra.
  - apply Forall_app. split; [exact Hok|]. constructor; [|constructor].
    unfold prices_within, within; cbn [open high low close].
    repeat split; apply round5_mono; lra.
Qed.

End MoreDemoFacts.
Lemma isoDate_day (ms k : Z) :
  isoDate (ms - k * 86400000) = isoDate ((ms / 86400000 - k) * 86400000).
Proof.
  unfold isoDate.
  replace ((ms - k * 86400000) / 86400000)%Z with (ms / 86400000 - k)%Z.
  - now rewrite Z.div_mul by lia.
  - replace (ms - k * 86400000)%Z with (ms + (- k) * 86400000)%Z by lia.
    rewrite Z.div_add by lia. lia.
Qed.

(** X18. A series of [count] candles reads the first [4 * count] values of
    [Math.random()] and the clock of its [count] iterations, and nothing
    else: two runs that agree on those return the same series. *)
Theorem demo_reads_4_count_randoms (random random' : nat -> Q)
    (now now' : nat -> Z) (count : nat) (basePrice volatility : Q) :
  (forall k, (k < 4 * count)%nat -> random' k = random k) ->
  (forall j, (j < count)%nat -> now' j = now j) ->
  generateDemoCandles random' now' count basePrice volatility
    = generateDemoCandles random now count basePrice volatility.
Proof.
  intros Hr Hn. unfold generateDemoCandles. apply demo_loop_ext.
  - intros k Hk. apply Hr. lia.
  - intros j Hj. apply Hn. lia.
Qed.

Lemma demo_reads_4_count_randoms_witness :
  generateDemoCandles (fun k => if (k <? 8)%nat then 1 # 2 else 9 # 10)
    (fun j => if (j <? 2)%nat then 1793577600000%Z else 0%Z) 2 (115 # 100) (1 # 100)
  = generateDemoCandles (fun _ => 1 # 2) (fun _ => 1793577600000%Z) 2
      (115 # 100) (1 # 100).
Proof.
  apply (demo_reads_4_count_randoms (fun _ => 1 # 2)
           (fun k => if (k <? 8)%nat then 1 # 2 else 9 # 10)
           (fun _ => 1793577600000%Z)
           (fun j => if (j <? 2)%nat then 1793577600000%Z else 0%Z) 2
           (115 # 100) (1 # 100)).
  - intros k Hk. destruct (Nat.ltb_spec k 8); [reflexivity | lia].
  - intros j Hj. destruct (Nat.ltb_spec j 2); [reflexivity | lia].
Defined.

(** X19. With the clock standing at [t], and as long as [Date] can hold
    them, the dates of a series of [count] candles are those of the [count]
    consecutive UTC days that end the day before the day of [t]: candle [j]
    is dated [count - j] days before it, and the last one the day before. *)
Theorem demo_dates (random : nat -> Q) (t : Z) (count : nat)
    (basePrice volatility : Q) :
  (forall i, (i < count)%nat ->
     in_Date_range (t - (Z.of_nat count - Z.of_nat i) * 86400000) = true) ->
  exists candles,
    generateDemoCandles_exn random (fun _ => t) count basePrice volatility
      = Ret candles /\
    map time candles
    = map (fun j => Some (JStr (isoDate
             ((t / 86400000 - (Z.of_nat count - Z.of_nat j)) * 86400000)%Z)))
          (seq 0 count).
Proof.
  intros Hrange. unfold generateDemoCandles_exn.
  rewrite demo_loop_exn_in_range by (intros j Hj; apply Hrange; lia).
  eexists. split; [reflexivity|].
  rewrite demo_loop_times. simpl.
  apply map_ext. intros j. now rewrite isoDate_day.
Qed.

Lemma demo_dates_witness :
  exists candles,
    generateDemoCandles_exn (fun _ => 1 # 2) (fun _ => 1793621000000%Z) 2
      (115 # 100) (1 # 100) = Ret candles /\
    map time candles
    = map (fun j => Some (JStr (isoDate
             ((1793621000000 / 86400000 - (Z.of_nat 2 - Z.of_nat j))
              * 86400000)%Z)))
          (seq 0 2).
Proof.
  apply (demo_dates (fun _ => 1 # 2) 1793621000000 2 (115 # 100) (1 # 100)).
  intros i Hi. destruct i as [|[|i]]; try reflexivity. lia.
Defined.

Section DemoRoutes.

Variable API_KEY : option string.
Variable parseFloat : jsval -> Exn jsnum.
Variable ToString : jsval -> Exn string.

Lemma demo_series_generated (random : nat -> Q) (now : nat -> Z)
    (volatility : Q) :
  is_random random -> (0 <= volatility)%Q ->
  demo_series volatility
    (generateDemoCandles random now 100 (115 # 100) volatility).
Proof.
  intros Hr Hv. unfold demo_series, generateDemoCandles.
  split; [|split].
  - now rewrite demo_loop_length.
  - apply demo_loop_ok; [exact Hv | apply Hr | constructor].
  - apply (demo_loop_bounded random now 100 volatility (115 # 100)
             (reach 100 volatility) 100 0 (115 # 100) [] 0 Hr Hv); try lra.
    constructor.
Qed.

Lemma td_demo_route interval volatility w p c :
  p <> "" -> is_random (random w) -> (0 <= volatility)%Q ->
  exists cs,
    TwelveData.candles_route API_KEY true parseFloat ToString interval
      volatility w (Some p) c = (json_ok (Candles cs), c, [EvDemo]) /\
    demo_series volatility cs.
Proof.
  intros Hp Hr Hv. eexists. split.
  - unfold TwelveData.candles_route. rewrite (present_not_missing p Hp).
    reflexivity.
  - now apply demo_series_generated.
Qed.

Lemma av_demo_route interval volatility w p c :
  p <> "" -> is_random (random w) -> (0 <= volatility)%Q ->
  exists cs,
    AlphaVantage.candles_route API_KEY true parseFloat ToString interval
      volatility w (Some p) c = (json_ok (Candles cs), c, [EvDemo]) /\
    demo_series volatility cs.
Proof.
  intros Hp Hr Hv. eexists. split.
  - unfold AlphaVantage.candles_route. rewrite (present_not_missing p Hp).
    reflexivity.
  - now apply demo_series_generated.
Qed.

End DemoRoutes.

(** X20. In demo mode each of the three routes, of either variant, answers a
    request with a non-empty [pair] by 200 and 100 candles, without touching
    the cache or the network; every candle has its low below and its high
    above its open and close, and all prices lie within the reach of the
    route's volatility around 1.15, which keeps them above 0.397 on every
    route. *)
Theorem demo_routes_answer (API_KEY : option string)
    (parseFloat : jsval -> Exn jsnum) (ToString : jsval -> Exn string)
    (w : Oracle) (p : string) (c : Cache.t) :
  p <> "" -> is_random (random w) ->
  (exists cs,
     TwelveData.api_daily API_KEY true parseFloat ToString w (Some p) c
       = (json_ok (Candles cs), c, [EvDemo]) /\ demo_series (1 # 100) cs) /\
  (exists cs,
     TwelveData.api_h1 API_KEY true parseFloat ToString w (Some p) c
       = (json_ok (Candles cs), c, [EvDemo]) /\ demo_series (5 # 1000) cs) /\
  (exists cs,
     TwelveData.api_m15 API_KEY true parseFloat ToString w (Some p) c
       = (json_ok (Candles cs), c, [EvDemo]) /\ demo_series (2 # 1000) cs) /\
  (exists cs,
     AlphaVantage.api_daily API_KEY true parseFloat ToString w (Some p) c
       = (json_ok (Candles cs), c, [EvDemo]) /\ demo_series (1 # 100) cs) /\
  (exists cs,
     AlphaVantage.api_h1 API_KEY true parseFloat ToString w (Some p) c
       = (json_ok (Candles cs), c, [EvDemo]) /\ demo_series (5 # 1000) cs) /\
  (exists cs,
     AlphaVantage.api_m15 API_KEY true parseFloat ToString w (Some p) c
       = (json_ok (Candles cs), c, [EvDemo]) /\ demo_series (2 # 1000) cs) /\
  round5 ((115 # 100) - reach 100 (1 # 100)) = 39700 # 100000 /\
  round5 ((115 # 100) - reach 100 (5 # 1000)) = 77350 # 100000 /\
  round5 ((115 # 100) - reach 100 (2 # 1000)) = 99940 # 100000.
Proof.
  intros Hp Hr.
  repeat split; try reflexivity;
    first [ apply td_demo_route | apply av_demo_route ];
    try assumption; discriminate.
Qed.

Lemma demo_routes_answer_witness :
  exists cs,
    TwelveData.api_daily (Some "KEY") true parseFloat_decimal ToString_text
      (oracle_of 1793577600000 (Rejected "network timeout")) (Some "EURUSD")
      (Cache.new 300000)
    = (json_ok (Candles cs), Cache.new 300000, [EvDemo]) /\
    demo_series (1 # 100) cs.
Proof.
  apply (demo_routes_answer (Some "KEY") parseFloat_decimal ToString_text
           (oracle_of 1793577600000 (Rejected "network timeout")) "EURUSD"
           (Cache.new 300000)).
  - discriminate.
  - intros k. split; [discriminate | reflexivity].
Defined.

(** ** Bodies that are not objects *)

Section IndexKeys.

Lemma pretty_N_char_digit (x : N) : digit (pretty_N_char x) <> None.
Proof. unfold pretty_N_char. repeat case_match; discriminate. Qed.

Lemma pretty_N_go_digits (x : N) (s : string) :
  digits_only s = true -> digits_only (pretty_N_go x s) = true.
Proof.
  revert s. induction (N.lt_wf_0 x) as [x _ IH]. intros s Hs.
  destruct (N.eq_0_gt_0_cases x) as [-> | Hpos].
  - now rewrite pretty_N_go_0.
  - rewrite pretty_N_go_step by exact Hpos. apply IH.
    + now apply N.div_lt.
    + simpl. pose proof (pretty_N_char_digit (x `mod` 10)).
      destruct (digit _); [exact Hs | congruence].
Qed.

Lemma pretty_nat_digits (n : nat) : digits_only (pretty n) = true.
Proof.
  unfold pretty, pretty_nat, pretty, pretty_N.
  destruct (decide (N.of_nat n = 0%N)); [reflexivity|].
  now apply pretty_N_go_digits.
Qed.

Lemma digits_no_series (s : string) :
  digits_only s = true -> includes "Time Series" s = false.
Proof.
  induction s as [|a s IH]; [reflexivity|]. simpl digits_only.
  destruct (digit a) eqn:Ha; [|discriminate]. intros Hs.
  cbn [includes prefixb]. rewrite (IH Hs).
  destruct (Ascii.eqb_spec "T" a) as [<- | _]; [discriminate Ha | reflexivity].
Qed.

Lemma enumerate_keys {A : Type} (i : nat) (l : list A) :
  Forall (fun k => includes "Time Series" k = false) (map fst (enumerate i l)).
Proof.
  revert i. induction l as [|x l IH]; intros i; simpl; constructor.
  - apply digits_no_series, pretty_nat_digits.
  - apply IH.
Qed.

Lemma find_none_forall (ks : list string) :
  Forall (fun k => includes "Time Series" k = false) ks ->
  find (fun k => includes "Time Series" k) ks = None.
Proof.
  induction 1 as [|k ks Hk _ IH]; [reflexivity|]. simpl. now rewrite Hk.
Qed.

End IndexKeys.

Section Malformed.
Variable parseFloat : jsval -> Exn jsnum.
Variable ToString : jsval -> Exn string.

Lemma td_parse_malformed st text dt :
  (forall fields, dt <> JObj fields) ->
  TwelveData.parse parseFloat ToString (Responded true st text (Ret dt))
    = Throw (malformed_message "status" dt).
Proof. intros Hobj. destruct dt; try reflexivity. now destruct (Hobj fields). Qed.

Lemma av_parse_malformed st text dt :
  (forall fields, dt <> JObj fields) ->
  AlphaVantage.parse parseFloat ToString (Responded true st text (Ret dt))
    = Throw (malformed_message "Note" dt).
Proof.
  intros Hobj. destruct dt; try reflexivity.
  - simpl. now rewrite (find_none_forall _ (enumerate_keys 0 (chars s))).
  - simpl. now rewrite (find_none_forall _ (enumerate_keys 0 items)).
  - now destruct (Hobj fields).
Qed.
End Malformed.

(** X21. A body that parses as JSON but is not an object is answered 500 in
    both variants: [null] with the [TypeError] of reading of [null] the
    first property the variant reads ([status] for Twelve Data, [Note] for
    AlphaVantage), and a number, a boolean, a string or an array with
    [NO_TIME_SERIES_DATA]. *)
Theorem malformed_body_is_500 (API_KEY : option string)
    (parseFloat : jsval -> Exn jsnum) (ToString : jsval -> Exn string)
    (interval : string) (volatility : Q) (w : Oracle) (p : string)
    (c : Cache.t) (st : nat) (text : string) (dt : json) :
  p <> "" ->
  upstream w = Responded true st text (Ret dt) ->
  (forall fields, dt <> JObj fields) ->
  (fst (Cache.get c (t_get w) (p ++ "-" ++ interval)) = None ->
   fst (fst (TwelveData.candles_route API_KEY false parseFloat ToString
               interval volatility w (Some p) c))
     = SERVER_ERROR (malformed_message "status" dt)) /\
  (fst (Cache.get c (t_get w) (AlphaVantage.alphaUrl API_KEY p interval)) = None ->
   fst (fst (AlphaVantage.candles_route API_KEY false parseFloat ToString
               interval volatility w (Some p) c))
     = SERVER_ERROR (malformed_message "Note" dt)).
Proof.
  intros Hp Hup Hobj. split; intros Hmiss.
  - rewrite (td_route_miss _ _ _ _ _ _ _ _ Hp Hmiss), Hup,
      (td_parse_malformed _ _ _ _ _ Hobj).
    destruct dt; reflexivity.
  - rewrite (av_route_miss _ _ _ _ _ _ _ _ Hp Hmiss), Hup,
      (av_parse_malformed _ _ _ _ _ Hobj).
    destruct dt; reflexivity.
Qed.

Lemma malformed_body_is_500_witness :
  fst (fst (TwelveData.candles_route (Some "KEY") false parseFloat_decimal
              ToString_text "daily" (1 # 100)
              (oracle_of 1000 (answer JNull))
              (Some "EURUSD") (Cache.new 300000)))
  = SERVER_ERROR (malformed_message "status" JNull).
Proof.
  apply (proj1 (malformed_body_is_500 (Some "KEY") parseFloat_decimal
                  ToString_text "daily" (1 # 100)
                  (oracle_of 1000 (answer JNull))
                  "EURUSD" (Cache.new 300000) 200 "OK" JNull
                  ltac:(discriminate) ltac:(reflexivity)
                  ltac:(discriminate))).
  reflexivity.
Defined.
